(** * InsightVault: prompt templates, analyses and the knowledge base

    A shallow embedding of the TypeScript sources ([types.ts],
    [services/db.ts], [services/gemini.ts], [components/Analyzer.tsx],
    [components/KnowledgeBase.tsx], [components/PromptManager.tsx]) and the
    properties of the persistence and orchestration layer.

    Conventions.
    - A JS string is a Rocq [string]: the sequence of its code units, here
      the ones below 256.
    - A JS [number] holding an epoch-millisecond timestamp is a [Z].
    - An [async] function is a computation in the monad [IO]: it reads the
      environment (the remote model, the clock, the UUID source, the locale
      formatting of dates), threads the [World] (IndexedDB content, the log
      of requests sent to the model, the alerts shown) and either returns a
      value or throws.  React state is passed explicitly: a handler maps the
      component state before the event to the state after it. *)

From Stdlib Require Import ZArith QArith String Ascii List.
From stdpp Require Import base option list gmap strings sorting pretty.

Local Open Scope Z_scope.
Local Open Scope string_scope.

(** ** JavaScript primitives used by the sources *)

Module JS.

(** [ToBoolean] on a string: only the empty string is falsy. *)
Definition truthy (s : string) : bool :=
  match s with EmptyString => false | String _ _ => true end.

(** [a || b] on strings. *)
Definition or_else (a b : string) : string := if truthy a then a else b.

(** [ToBoolean] on [string | null | undefined]. *)
Definition truthy_opt (o : option string) : bool :=
  match o with Some s => truthy s | None => false end.

(** [o || b] for [o : string | null | undefined]. *)
Definition opt_or_else (o : option string) (b : string) : string :=
  match o with Some s => or_else s b | None => b end.

(** [ToBoolean] on a number (NaN does not arise for integers). *)
Definition truthy_num (n : Z) : bool := negb (n =? 0)%Z.

(** White space and line terminators stripped by [String.prototype.trim],
    among the code units below 256: TAB, LF, VT, FF, CR, SP, NBSP. *)
Definition isWhiteSpace (c : ascii) : bool :=
  match nat_of_ascii c with
  | 9%nat | 10%nat | 11%nat | 12%nat | 13%nat | 32%nat | 160%nat => true
  | _ => false
  end.

Fixpoint trimStart (s : string) : string :=
  match s with
  | EmptyString => EmptyString
  | String c s' => if isWhiteSpace c then trimStart s' else s
  end.

(** [trimEnd] keeps a character when it is not white space or when some
    character after it is kept. *)
Fixpoint trimEnd (s : string) : string :=
  match s with
  | EmptyString => EmptyString
  | String c s' =>
      match trimEnd s' with
      | EmptyString => if isWhiteSpace c then EmptyString else String c EmptyString
      | t => String c t
      end
  end.

Definition trim (s : string) : string := trimEnd (trimStart s).

(** [s.substring(0, n)]: the first [n] code units, or all of [s] when it
    is shorter. *)
Definition substring0 (n : nat) (s : string) : string := String.substring 0 n s.

(** [a.slice(0, n)] on arrays. *)
Definition slice0 {A} (n : nat) (l : list A) : list A := take n l.

(** [a.join(sep)] on an array of strings. *)
Fixpoint join (sep : string) (l : list string) : string :=
  match l with
  | [] => EmptyString
  | [x] => x
  | x :: rest => x +:+ sep +:+ join sep rest
  end.

(** The newline character of a template literal. *)
Definition nl : string := String (ascii_of_nat 10) EmptyString.




End JS.

(** ** [types.ts]

    [SavedPrompt.createdAt] is declared a [number]; it is [None] for a stored
    object without the field, which [handleImport] can write (it stores the
    objects read from a file as they are). *)

Module SavedPrompt.
Record t : Type := mk {
  id : string;
  title : string;
  content : string;
  createdAt : option Z
}.
#[global] Instance eq_dec : EqDecision t.
Proof. solve_decision. Defined.
End SavedPrompt.
Abbreviation SavedPrompt := SavedPrompt.t.

Module AnalysisEntry.
Record t : Type := mk {
  id : string;
  title : string;
  originalText : string;
  analysis : string;
  promptId : string;        (* The prompt used *)
  promptSnapshot : string;  (* The prompt text at the time of analysis *)
  timestamp : Z
}.
#[global] Instance eq_dec : EqDecision t.
Proof. solve_decision. Defined.
End AnalysisEntry.
Abbreviation AnalysisEntry := AnalysisEntry.t.

Inductive ViewState : Type := ANALYZER | DATABASE | PROMPTS.

Module Role.
Inductive t : Type := user | model.
End Role.

Module ChatMessage.
Record t : Type := mk { role : Role.t; text : string; timestamp : Z }.
End ChatMessage.
Abbreviation ChatMessage := ChatMessage.t.

(** ** The environment, the world and the monad of [async] functions *)

(** A thrown JS value: an [Error] object with its constructor and message;
    a [DOMException] with its name and message, as IndexedDB throws them.
    [GenerationError] is the error class of the specification's taxonomy, an
    error that wraps the underlying failure; the sources declare no such
    class and construct none, it is here to state what the specification
    says. *)
Inductive Exn : Type :=
  | Error (message : string)
  | TypeError (message : string)
  | SyntaxError (message : string)
  | DOMException (name message : string)
  | GenerationError (underlying : Exn).

(** Request and response of [ai.models.generateContent] (package
    [@google/genai], outside the repository). *)
Module GenAI.
Record Content : Type := mkContent { role : string; parts : list string }.
Record Config : Type := mkConfig {
  temperature : option Q;
  systemInstruction : option string
}.
Record GenerateContentParameters : Type := mkParams {
  model : string;
  contents : list Content;
  config : Config
}.
(** [response.text] is [string | undefined]. *)
Record GenerateContentResponse : Type := mkResponse { text : option string }.
End GenAI.

(** The two object stores of the IndexedDB database, both with key path
    [id]: a finite map from the key to the record. *)
Record IDBDatabase : Type := mkIDB {
  store_prompts : gmap string SavedPrompt;
  store_entries : gmap string AnalysisEntry
}.

(** What the browser and the network decide.  The remote model either
    answers or fails; [dateNow k] and [randomUUID k] are the results of the
    [k]-th call of [Date.now()] and [crypto.randomUUID()]; the two locale
    formatters of [Date] depend on the browser's locale; [openError] is
    [request.error] when [indexedDB.open] fails, [None] when it succeeds. *)
Record Env : Type := mkEnv {
  generateContent : GenAI.GenerateContentParameters -> Exn + GenAI.GenerateContentResponse;
  dateNow : nat -> Z;
  randomUUID : nat -> string;
  toLocaleDateString : Z -> string;
  toLocaleString : Z -> string;
  openError : option Exn
}.

Record World : Type := mkWorld {
  indexedDB : IDBDatabase;          (* persistent content of 'InsightVaultDB' *)
  dbService_db : bool;              (* DBService.db is set (not null) *)
  requests : list GenAI.GenerateContentParameters; (* calls sent to the model, oldest first *)
  alerts : list string;             (* window.alert messages, oldest first *)
  clockReads : nat;                 (* calls of Date.now() so far *)
  uuidsDrawn : nat;                 (* calls of crypto.randomUUID() so far *)
  view : ViewState                  (* App's [view] state *)
}.

Inductive Outcome (A : Type) : Type :=
  | Returned (a : A)
  | Thrown (e : Exn).
Arguments Returned {A} a.
Arguments Thrown {A} e.

Definition IO (A : Type) : Type := Env -> World -> Outcome A * World.

Definition ret {A} (a : A) : IO A := fun _ w => (Returned a, w).
Definition throw {A} (e : Exn) : IO A := fun _ w => (Thrown e, w).
Definition bind {A B} (m : IO A) (k : A -> IO B) : IO B :=
  fun env w =>
    match m env w with
    | (Returned a, w') => k a env w'
    | (Thrown e, w') => (Thrown e, w')
    end.
(** [try { body } catch (e) { handler e }] *)
Definition try_catch {A} (body : IO A) (handler : Exn -> IO A) : IO A :=
  fun env w =>
    match body env w with
    | (Returned a, w') => (Returned a, w')
    | (Thrown e, w') => handler e env w'
    end.
Definition getEnv : IO Env := fun env w => (Returned env, w).
Definition getWorld : IO World := fun _ w => (Returned w, w).
Definition putWorld (w : World) : IO unit := fun _ _ => (Returned tt, w).

Declare Scope io_scope.
Delimit Scope io_scope with io.
Notation "x <- m ;; k" := (bind m (fun x => k))
  (at level 100, m at next level, right associativity) : io_scope.
Notation "m ;;; k" := (bind m (fun _ => k))
  (at level 100, right associativity) : io_scope.
Local Open Scope io_scope.

Definition set_indexedDB (d : IDBDatabase) (w : World) : World :=
  mkWorld d (dbService_db w) (requests w) (alerts w) (clockReads w) (uuidsDrawn w) (view w).
Definition set_dbService_db (b : bool) (w : World) : World :=
  mkWorld (indexedDB w) b (requests w) (alerts w) (clockReads w) (uuidsDrawn w) (view w).
Definition set_view (v : ViewState) (w : World) : World :=
  mkWorld (indexedDB w) (dbService_db w) (requests w) (alerts w) (clockReads w) (uuidsDrawn w) v.

(** [Date.now()] *)
Definition Date_now : IO Z :=
  fun env w =>
    (Returned (dateNow env (clockReads w)),
     mkWorld (indexedDB w) (dbService_db w) (requests w) (alerts w)
             (S (clockReads w)) (uuidsDrawn w) (view w)).

(** [crypto.randomUUID()] *)
Definition crypto_randomUUID : IO string :=
  fun env w =>
    (Returned (randomUUID env (uuidsDrawn w)),
     mkWorld (indexedDB w) (dbService_db w) (requests w) (alerts w)
             (clockReads w) (S (uuidsDrawn w)) (view w)).

Definition logAlert (msg : string) (w : World) : World :=
  mkWorld (indexedDB w) (dbService_db w) (requests w) (alerts w ++ [msg])
          (clockReads w) (uuidsDrawn w) (view w).

(** [alert(msg)] *)
Definition alert (msg : string) : IO unit :=
  fun _ w => (Returned tt, logAlert msg w).

Definition logRequest (params : GenAI.GenerateContentParameters) (w : World) : World :=
  mkWorld (indexedDB w) (dbService_db w) (requests w ++ [params]) (alerts w)
          (clockReads w) (uuidsDrawn w) (view w).

(** [await this.ai.models.generateContent(params)]: the call is logged and
    the environment decides the answer. *)
Definition ai_models_generateContent (params : GenAI.GenerateContentParameters)
  : IO GenAI.GenerateContentResponse :=
  fun env w =>
    let w' := logRequest params w in
    match generateContent env params with
    | inl e => (Thrown e, w')
    | inr r => (Returned r, w')
    end.

(** ** [services/db.ts] *)

Module DBService.

(** [init]: nothing to do when [this.db] is set.  Otherwise the database is
    opened: on [request.onerror] the pending promise is dropped and the
    call rejects with [request.error], leaving [this.db] null; on
    [request.onsuccess] [this.db] is set (the two object stores exist after
    the upgrade callback).  [this.initPromise] is set only while an opening
    is pending: a failure resets it, and after a success [this.db] is
    tested first; calls are sequential here, so it is left out. *)
Definition init : IO unit :=
  w <- getWorld ;;
  if dbService_db w then ret tt
  else
    env <- getEnv ;;
    match openError env with
    | Some e => throw e
    | None => putWorld (set_dbService_db true w)
    end.

(** [getStore]: throws when [this.db] is null, otherwise gives access to
    the stores. *)
Definition getStore : IO IDBDatabase :=
  w <- getWorld ;;
  if dbService_db w then ret (indexedDB w) else throw (Error "DB not initialized").

Definition putStore (d : IDBDatabase) : IO unit :=
  w <- getWorld ;; putWorld (set_indexedDB d w).

(* --- Prompts --- *)

(** Order of an object store: by key. *)
Definition key_le {V} (a b : string * V) : Prop := String.le a.1 b.1.

#[global] Instance key_le_dec {V} : RelDecision (@key_le V).
Proof. intros a b. unfold key_le. apply _. Defined.

(** [store.getAll()]: every record of the store, ascending in the keys. *)
Definition getAll {V} (m : gmap string V) : list V :=
  (merge_sort key_le (map_to_list m)).*2.

Definition getAllPrompts : IO (list SavedPrompt) :=
  d <- getStore ;;
  ret (getAll (store_prompts d)).

(** [store.put(prompt)]: the record is stored under its [id], replacing
    the record that had this key. *)
Definition savePrompt (prompt : SavedPrompt) : IO unit :=
  d <- getStore ;;
  putStore (mkIDB (<[SavedPrompt.id prompt := prompt]> (store_prompts d)) (store_entries d)).

(** [store.delete(id)] *)
Definition deletePrompt (id : string) : IO unit :=
  d <- getStore ;;
  putStore (mkIDB (delete id (store_prompts d)) (store_entries d)).

(* --- Entries --- *)

(** Order of the index [timestamp] (not unique): by index key, records
    with the same index key by primary key [id]. *)
Definition index_le (a b : AnalysisEntry) : Prop :=
  AnalysisEntry.timestamp a < AnalysisEntry.timestamp b
  ∨ (AnalysisEntry.timestamp a = AnalysisEntry.timestamp b
     ∧ String.le (AnalysisEntry.id a) (AnalysisEntry.id b)).

#[global] Instance index_le_dec : RelDecision index_le.
Proof. intros a b. unfold index_le. apply _. Defined.

(** [index.getAll()]: every record, ascending in the index order. *)
Definition index_getAll (m : gmap string AnalysisEntry) : list AnalysisEntry :=
  merge_sort index_le (map_to_list m).*2.

(** [getAllEntries]: [index.getAll()], reversed in memory. *)
Definition getAllEntries : IO (list AnalysisEntry) :=
  d <- getStore ;;
  ret (reverse (index_getAll (store_entries d))).

Definition saveEntry (entry : AnalysisEntry) : IO unit :=
  d <- getStore ;;
  putStore (mkIDB (store_prompts d) (<[AnalysisEntry.id entry := entry]> (store_entries d))).

Definition deleteEntry (id : string) : IO unit :=
  d <- getStore ;;
  putStore (mkIDB (store_prompts d) (delete id (store_entries d))).

End DBService.

(** ** [services/gemini.ts] *)

Module GeminiService.

Definition modelId : string := "gemini-2.5-flash".

(** [analyzeText]: one call of the model; [console.error] in the [catch]
    writes to the developer console only, then the error is rethrown. *)
Definition analyzeParams (text promptInstruction : string)
  : GenAI.GenerateContentParameters :=
  GenAI.mkParams modelId
    [GenAI.mkContent "user"
       ["INSTRUCTION: " +:+ promptInstruction;
        "TRANSCRIPT/TEXT TO ANALYZE:" +:+ JS.nl +:+ text]]
    (GenAI.mkConfig (Some (3 # 10)%Q) None).

Definition analyzeText (text promptInstruction : string) : IO string :=
  try_catch
    (response <- ai_models_generateContent (analyzeParams text promptInstruction) ;;
     ret (JS.opt_or_else (GenAI.text response) "No response generated."))
    (fun error => throw error).

(** The template literal mapped over the entries. *)
Definition renderEntry (env : Env) (entry : AnalysisEntry) : string :=
  JS.nl +:+ "---" +:+ JS.nl
  +:+ "Entry ID: " +:+ AnalysisEntry.id entry +:+ JS.nl
  +:+ "Date: " +:+ toLocaleDateString env (AnalysisEntry.timestamp entry) +:+ JS.nl
  +:+ "Title: " +:+ AnalysisEntry.title entry +:+ JS.nl
  +:+ "Summary/Analysis: " +:+ AnalysisEntry.analysis entry +:+ JS.nl
  +:+ "Original Excerpt (First 300 chars): "
  +:+ JS.substring0 300 (AnalysisEntry.originalText entry) +:+ "..." +:+ JS.nl
  +:+ "---" +:+ JS.nl
  +:+ "        ".

(** [entries.slice(0, 50).map(...).join('\n')] *)
Definition contextData (env : Env) (entries : list AnalysisEntry) : string :=
  JS.join JS.nl (map (renderEntry env) (JS.slice0 50 entries)).

Definition systemInstruction : string :=
  "You are a knowledge base assistant. " +:+ JS.nl
  +:+ "You have access to a list of analyzed interview transcripts/texts. " +:+ JS.nl
  +:+ "Your job is to answer the user's question based ONLY on the provided database context."
  +:+ JS.nl
  +:+ "If the answer is not in the context, say you don't know. " +:+ JS.nl
  +:+ "Cite the Entry ID or Title when referencing specific information.".

Definition searchParams (env : Env) (query : string) (entries : list AnalysisEntry)
  : GenAI.GenerateContentParameters :=
  GenAI.mkParams modelId
    [GenAI.mkContent "user"
       ["DATABASE CONTEXT:" +:+ JS.nl +:+ contextData env entries;
        "USER QUESTION: " +:+ query]]
    (GenAI.mkConfig None (Some systemInstruction)).

Definition searchDatabase (query : string) (entries : list AnalysisEntry) : IO string :=
  try_catch
    (env <- getEnv ;;
     response <- ai_models_generateContent (searchParams env query entries) ;;
     ret (JS.opt_or_else (GenAI.text response) "I couldn't find an answer in your database."))
    (fun error => throw error).

End GeminiService.

(** ** [components/Analyzer.tsx] *)

Module Analyzer.

Record State : Type := mkState {
  prompts : list SavedPrompt;
  selectedPromptId : string;
  inputText : string;
  title : string;
  isAnalyzing : bool;
  result : option string;
  error : option string
}.

Definition setPrompts v (s : State) :=
  mkState v (selectedPromptId s) (inputText s) (title s) (isAnalyzing s) (result s) (error s).
Definition setSelectedPromptId v (s : State) :=
  mkState (prompts s) v (inputText s) (title s) (isAnalyzing s) (result s) (error s).
Definition setInputText v (s : State) :=
  mkState (prompts s) (selectedPromptId s) v (title s) (isAnalyzing s) (result s) (error s).
Definition setTitle v (s : State) :=
  mkState (prompts s) (selectedPromptId s) (inputText s) v (isAnalyzing s) (result s) (error s).
Definition setIsAnalyzing v (s : State) :=
  mkState (prompts s) (selectedPromptId s) (inputText s) (title s) v (result s) (error s).
Definition setResult v (s : State) :=
  mkState (prompts s) (selectedPromptId s) (inputText s) (title s) (isAnalyzing s) v (error s).
Definition setError v (s : State) :=
  mkState (prompts s) (selectedPromptId s) (inputText s) (title s) (isAnalyzing s) (result s) v.

(** The state of [useState] at mount. *)
Definition initial : State := mkState [] EmptyString EmptyString EmptyString false None None.

(** [prompts.find(p => p.id === selectedPromptId)] *)
Definition findPrompt (s : State) : option SavedPrompt :=
  List.find (fun p => String.eqb (SavedPrompt.id p) (selectedPromptId s)) (prompts s).

Definition loadPrompts (s : State) : IO State :=
  try_catch
    (data <- DBService.getAllPrompts ;;
     let s1 := setPrompts data s in
     ret (match data with
          | p :: _ => setSelectedPromptId (SavedPrompt.id p) s1
          | [] => s1
          end))
    (fun _ => ret s).

Definition handleRunAnalysis (s : State) : IO State :=
  if negb (JS.truthy (JS.trim (inputText s))) then
    ret (setError (Some "Please enter text to analyze.") s)
  else if negb (JS.truthy (selectedPromptId s)) then
    ret (setError (Some "Please select a prompt.") s)
  else
    match findPrompt s with
    | None => ret s
    | Some promptObj =>
        let s1 := setResult None (setError None (setIsAnalyzing true s)) in
        s2 <- try_catch
                (output <- GeminiService.analyzeText (inputText s) (SavedPrompt.content promptObj) ;;
                 ret (setResult (Some output) s1))
                (fun _ =>
                   ret (setError
                          (Some "Failed to generate analysis. Please check your connection and API key.")
                          s1)) ;;
        ret (setIsAnalyzing false s2)
    end.

(** [handleSave]; [onSaveComplete] is the component's prop.  When
    [saveEntry] throws, the handler's promise rejects before any state is
    set. *)
Definition handleSave (onSaveComplete : IO unit) (s : State) : IO State :=
  match result s with
  | Some r =>
      if negb (JS.truthy r) || negb (JS.truthy (selectedPromptId s)) then ret s
      else
        match findPrompt s with
        | None => ret s
        | Some promptObj =>
            env <- getEnv ;;
            id <- crypto_randomUUID ;;
            ttl <- (if JS.truthy (title s) then ret (title s)
                    else (now <- Date_now ;;
                          ret ("Analysis - " +:+ toLocaleString env now))) ;;
            ts <- Date_now ;;
            let newEntry :=
              AnalysisEntry.mk id ttl (inputText s) r
                (SavedPrompt.id promptObj) (SavedPrompt.content promptObj) ts in
            DBService.saveEntry newEntry ;;;
            onSaveComplete ;;;
            ret (setTitle EmptyString (setResult None (setInputText EmptyString s)))
        end
  | None => ret s
  end.

End Analyzer.

(** [App]: the prop given to [Analyzer]. *)
Definition App_onSaveComplete : IO unit :=
  w <- getWorld ;; putWorld (set_view DATABASE w).

(** [App]: the effect run at mount.  It opens the database and seeds a
    default template when none is stored; the result is the value given to
    [setIsInit]. *)
Module App.
Definition defaultPrompt (id : string) (now : Z) : SavedPrompt :=
  SavedPrompt.mk id "General Summary"
    "Summarize the following text. Highlight key points, main arguments, and any actionable insights."
    (Some now).

Definition init : IO bool :=
  DBService.init ;;;
  prompts <- DBService.getAllPrompts ;;
  (match prompts with
   | [] =>
       id <- crypto_randomUUID ;;
       now <- Date_now ;;
       DBService.savePrompt (defaultPrompt id now)
   | _ :: _ => ret tt
   end) ;;;
  ret true.
End App.

(** ** [components/KnowledgeBase.tsx] *)

Module KnowledgeBase.

Record State : Type := mkState {
  entries : list AnalysisEntry;
  searchTerm : string;
  expandedId : option string;
  chatQuery : string;
  isChatting : bool;
  chatHistory : list ChatMessage
}.

Definition setEntries v (s : State) :=
  mkState v (searchTerm s) (expandedId s) (chatQuery s) (isChatting s) (chatHistory s).
Definition setChatQuery v (s : State) :=
  mkState (entries s) (searchTerm s) (expandedId s) v (isChatting s) (chatHistory s).
Definition setIsChatting v (s : State) :=
  mkState (entries s) (searchTerm s) (expandedId s) (chatQuery s) v (chatHistory s).
(** [setChatHistory(prev => [...prev, msg])] *)
Definition appendChat (msg : ChatMessage) (s : State) :=
  mkState (entries s) (searchTerm s) (expandedId s) (chatQuery s) (isChatting s)
          (chatHistory s ++ [msg]).

Definition initial : State := mkState [] EmptyString None EmptyString false [].

Definition loadEntries (s : State) : IO State :=
  try_catch
    (data <- DBService.getAllEntries ;; ret (setEntries data s))
    (fun _ => ret s).

(** [handleDelete]; [confirmed] is the answer to [window.confirm]. *)
Definition handleDelete (confirmed : bool) (id : string) (s : State) : IO State :=
  if confirmed then (DBService.deleteEntry id ;;; loadEntries s) else ret s.

Definition handleSmartSearch (s : State) : IO State :=
  if negb (JS.truthy (JS.trim (chatQuery s))) then ret s
  else
    t0 <- Date_now ;;
    let userMsg := ChatMessage.mk Role.user (chatQuery s) t0 in
    let s1 := setChatQuery EmptyString (setIsChatting true (appendChat userMsg s)) in
    s2 <- try_catch
            (responseText <- GeminiService.searchDatabase (ChatMessage.text userMsg) (entries s) ;;
             t1 <- Date_now ;;
             ret (appendChat (ChatMessage.mk Role.model responseText t1) s1))
            (fun _ =>
               t1 <- Date_now ;;
               ret (appendChat
                      (ChatMessage.mk Role.model
                         "Sorry, I encountered an error searching your database." t1)
                      s1)) ;;
    ret (setIsChatting false s2).




End KnowledgeBase.

(** ** [components/PromptManager.tsx] *)

Module PromptManager.

(** [Partial<SavedPrompt>] *)
Record PartialPrompt : Type := mkPartial {
  p_id : option string;
  p_title : option string;
  p_content : option string;
  p_createdAt : option Z
}.

Definition ofSavedPrompt (p : SavedPrompt) : PartialPrompt :=
  mkPartial (Some (SavedPrompt.id p)) (Some (SavedPrompt.title p))
            (Some (SavedPrompt.content p)) (SavedPrompt.createdAt p).

Record State : Type := mkState {
  prompts : list SavedPrompt;
  isEditing : bool;
  currentPrompt : PartialPrompt
}.

Definition initial : State := mkState [] false (mkPartial None None None None).

Definition loadPrompts (s : State) : IO State :=
  try_catch
    (data <- DBService.getAllPrompts ;; ret (mkState data (isEditing s) (currentPrompt s)))
    (fun _ => ret s).

(** [handleEdit(prompt?)] *)
Definition handleEdit (prompt : option SavedPrompt) (s : State) : State :=
  match prompt with
  | Some p => mkState (prompts s) true (ofSavedPrompt p)
  | None =>
      mkState (prompts s) true (mkPartial None (Some EmptyString) (Some EmptyString) None)
  end.

(** The two [onChange] handlers of the editor. *)
Definition changeTitle (v : string) (s : State) : State :=
  let c := currentPrompt s in
  mkState (prompts s) (isEditing s) (mkPartial (p_id c) (Some v) (p_content c) (p_createdAt c)).
Definition changeContent (v : string) (s : State) : State :=
  let c := currentPrompt s in
  mkState (prompts s) (isEditing s) (mkPartial (p_id c) (p_title c) (Some v) (p_createdAt c)).

(** [handleDelete]; [confirmed] is the answer to [window.confirm]. *)
Definition handleDelete (confirmed : bool) (id : string) (s : State) : IO State :=
  if confirmed then (DBService.deletePrompt id ;;; loadPrompts s) else ret s.

(** [currentPrompt.createdAt || Date.now()] *)
Definition createdAt_or_now (c : option Z) : IO Z :=
  match c with
  | Some t => if JS.truthy_num t then ret t else Date_now
  | None => Date_now
  end.

(** [x.id || crypto.randomUUID()] *)
Definition id_or_randomUUID (i : option string) : IO string :=
  if JS.truthy_opt i then ret (default EmptyString i) else crypto_randomUUID.

Definition handleSave (s : State) : IO State :=
  let c := currentPrompt s in
  match p_title c, p_content c with
  | Some t, Some ct =>
      if negb (JS.truthy t) || negb (JS.truthy ct) then ret s
      else
        id <- id_or_randomUUID (p_id c) ;;
        created <- createdAt_or_now (p_createdAt c) ;;
        let promptToSave := SavedPrompt.mk id t ct (Some created) in
        DBService.savePrompt promptToSave ;;;
        loadPrompts (mkState (prompts s) false c)
  | _, _ => ret s
  end.

(** What [JSON.parse] made of the file's text, as [handleImport] looks at
    it.  The fields of an [ItemObject], when present, have the types that
    the interface [SavedPrompt] declares (a falsy field of another type
    counts as absent: the item is skipped, or its [id] is replaced by a
    generated one).  An [ItemObjectInvalidId] is an object whose [id] is
    truthy and is not a valid key of IndexedDB ([true], an object, an array
    holding one of these), with its title and content.  Objects whose [id]
    is a key that is not a string (a non-zero number, an array of keys) and
    objects with a truthy title or content that is not a string have no
    counterpart here: the stores of this development are keyed by strings
    and hold records of the declared types. *)
Inductive ImportItem : Type :=
  | ItemNull                        (* null *)
  | ItemPrimitive                   (* a number, a string, a boolean or an array *)
  | ItemObject (p : PartialPrompt)  (* an object *)
  | ItemObjectInvalidId (title content : option string).

Inductive Parsed : Type :=
  | ParseFailure (e : Exn)                (* JSON.parse throws *)
  | NotAnArray                            (* an object, a string, a number, a boolean, null *)
  | ParsedArray (items : list ImportItem).

(** [p.title && p.content]: reading a property of [null] throws, a
    primitive or an array has neither property. *)
Definition validates (p : ImportItem) : IO bool :=
  match p with
  | ItemNull => throw (TypeError "Cannot read properties of null (reading 'title')")
  | ItemPrimitive => ret false
  | ItemObject o => ret (JS.truthy_opt (p_title o) && JS.truthy_opt (p_content o))
  | ItemObjectInvalidId t c => ret (JS.truthy_opt t && JS.truthy_opt c)
  end.

(** [store.put] on a record whose key path does not give a valid key. *)
Definition DataError : Exn :=
  DOMException "DataError"
    "Failed to execute 'put' on 'IDBObjectStore': Evaluating the object store's key path yielded a value that is not a valid key.".

(** The body of the [for ... of] loop on one item; the result is the new
    value of [count].  For an identifier that is not a valid key,
    [savePrompt] rejects: [getStore] throws first when [this.db] is null,
    otherwise [store.put] throws. *)
Definition importOne (count : nat) (p : ImportItem) : IO nat :=
  ok <- validates p ;;
  if ok then
    match p with
    | ItemObject o =>
        id <- id_or_randomUUID (p_id o) ;;
        let pToSave :=
          SavedPrompt.mk id (default EmptyString (p_title o))
                         (default EmptyString (p_content o)) (p_createdAt o) in
        DBService.savePrompt pToSave ;;;
        ret (S count)
    | ItemObjectInvalidId _ _ =>
        DBService.getStore ;;;
        throw DataError
    | _ => ret count
    end
  else ret count.

Fixpoint importLoop (count : nat) (items : list ImportItem) : IO nat :=
  match items with
  | [] => ret count
  | p :: rest => c <- importOne count p ;; importLoop c rest
  end.

(** [String(count)] for the success message. *)
Definition numberToString (n : nat) : string := pretty n.

(** [reader.onload] of [handleImport]. *)
Definition handleImport (parsed : Parsed) (s : State) : IO State :=
  try_catch
    (items <- match parsed with
              | ParseFailure e => throw e
              | NotAnArray => throw (Error "Invalid format")
              | ParsedArray items => ret items
              end ;;
     count <- importLoop 0 items ;;
     alert ("Successfully imported " +:+ numberToString count +:+ " prompts.") ;;;
     loadPrompts s)
    (fun _ =>
       alert "Failed to import. Please check the file format." ;;;
       ret s).

(** [handleExport] writes [JSON.stringify(prompts, null, 2)] to a file.
    Read back by [JSON.parse], the file is the list of the templates as
    objects, with every field that was set. *)
Definition exportedFile (s : State) : Parsed :=
  ParsedArray (map (fun p => ItemObject (ofSavedPrompt p)) (prompts s)).

End PromptManager.

(** ** Vocabulary of the specification *)

(** An input text that is empty or made of white space only. *)
Fixpoint whitespaceOnly (s : string) : bool :=
  match s with
  | EmptyString => true
  | String c s' => JS.isWhiteSpace c && whitespaceOnly s'
  end.

(** The provider returns nothing: [response.text] is undefined or empty. *)
Definition returnsNothing (r : GenAI.GenerateContentResponse) : Prop :=
  JS.truthy_opt (GenAI.text r) = false.

(** Two entries that agree on what an entry contributes to the context
    document: identifier, date, title, analysis text and the first 300
    characters of the original text, read off the list of its characters. *)
Definition sameContribution (a b : AnalysisEntry) : Prop :=
  AnalysisEntry.id a = AnalysisEntry.id b
  ∧ AnalysisEntry.timestamp a = AnalysisEntry.timestamp b
  ∧ AnalysisEntry.title a = AnalysisEntry.title b
  ∧ AnalysisEntry.analysis a = AnalysisEntry.analysis b
  ∧ take 300 (list_ascii_of_string (AnalysisEntry.originalText a))
    = take 300 (list_ascii_of_string (AnalysisEntry.originalText b)).

(** Key path [id]: every record of a store sits under its own [id]. *)
Definition keyedPrompts (m : gmap string SavedPrompt) : Prop :=
  map_Forall (fun k p => SavedPrompt.id p = k) m.

(** Operations on the template collection, run one after the other. *)
Inductive TemplateOp : Type :=
  | SaveTemplate (p : SavedPrompt)
  | DeleteTemplate (id : string).

Definition runTemplateOp (op : TemplateOp) : IO unit :=
  match op with
  | SaveTemplate p => DBService.savePrompt p
  | DeleteTemplate id => DBService.deletePrompt id
  end.

Fixpoint runTemplateOps (ops : list TemplateOp) : IO unit :=
  match ops with
  | [] => ret tt
  | op :: rest => runTemplateOp op ;;; runTemplateOps rest
  end.

(** An item of an imported list that validates on its own: an object with
    a non-empty title and a non-empty content. *)
Definition importable (p : PromptManager.ImportItem) : bool :=
  match p with
  | PromptManager.ItemObject o =>
      JS.truthy_opt (PromptManager.p_title o) && JS.truthy_opt (PromptManager.p_content o)
  | PromptManager.ItemObjectInvalidId t c => JS.truthy_opt t && JS.truthy_opt c
  | _ => false
  end.

(** Key path [id] for the entries. *)
Definition keyedEntries (m : gmap string AnalysisEntry) : Prop :=
  map_Forall (fun k e => AnalysisEntry.id e = k) m.

(** A template as the editor makes them: identifier, title and content are
    not empty. *)
Definition wellFormedPrompt (p : SavedPrompt) : Prop :=
  SavedPrompt.id p ≠ EmptyString
  ∧ SavedPrompt.title p ≠ EmptyString
  ∧ SavedPrompt.content p ≠ EmptyString.

(** The entry that [Analyzer.handleSave] writes for the result [r] and the
    template [p]: the title typed by the user or, when it is empty, a label
    made from the current date, which costs one more reading of the clock. *)
Definition savedEntry (env : Env) (w : World) (s : Analyzer.State) (r : string)
    (p : SavedPrompt) : AnalysisEntry :=
  if JS.truthy (Analyzer.title s) then
    AnalysisEntry.mk (randomUUID env (uuidsDrawn w)) (Analyzer.title s)
      (Analyzer.inputText s) r (SavedPrompt.id p) (SavedPrompt.content p)
      (dateNow env (clockReads w))
  else
    AnalysisEntry.mk (randomUUID env (uuidsDrawn w))
      ("Analysis - " +:+ toLocaleString env (dateNow env (clockReads w)))
      (Analyzer.inputText s) r (SavedPrompt.id p) (SavedPrompt.content p)
      (dateNow env (S (clockReads w))).



(** ** A concrete environment, used to run the model on examples *)

Module Demo.
Definition env (answer : Exn + GenAI.GenerateContentResponse) : Env :=
  mkEnv (fun _ => answer)
        (fun k => 1700000000000 + Z.of_nat k)
        (fun k => "uuid-" +:+ pretty k)
        (fun t => pretty t)
        (fun t => pretty t)
        None.

Definition answers (s : string) : Exn + GenAI.GenerateContentResponse :=
  inr (GenAI.mkResponse (Some s)).
Definition silent : Exn + GenAI.GenerateContentResponse :=
  inr (GenAI.mkResponse None).
Definition fails : Exn + GenAI.GenerateContentResponse :=
  inl (Error "429 RESOURCE_EXHAUSTED").

Definition world (d : IDBDatabase) : World := mkWorld d true [] [] 0 0 ANALYZER.
Definition emptyDB : IDBDatabase := mkIDB ∅ ∅.

(** Two templates and the analyzer with the first one selected. *)
Definition summarize : SavedPrompt :=
  SavedPrompt.mk "a" "Summary" "Summarize X" (Some 1699999999000).
Definition translate : SavedPrompt :=
  SavedPrompt.mk "b" "Translation" "Translate to French" (Some 1699999999500).
Definition twoPrompts : IDBDatabase :=
  mkIDB (<["a" := summarize]> (<["b" := translate]> ∅)) ∅.
Definition analyzer : Analyzer.State :=
  Analyzer.mkState [summarize; translate] "a" "T" EmptyString false None None.

(** Three entries, two of them with the same timestamp. *)
Definition entryA : AnalysisEntry :=
  AnalysisEntry.mk "a1" "First" "text one" "analysis one" "a" "Summarize X" 1700000000300.
Definition entryB : AnalysisEntry :=
  AnalysisEntry.mk "b2" "Second" "text two" "analysis two" "a" "Summarize X" 1700000000300.
Definition entryC : AnalysisEntry :=
  AnalysisEntry.mk "c3" "Third" "text three" "analysis three" "b" "Translate to French"
                   1700000000900.
Definition threeEntries : IDBDatabase :=
  mkIDB ∅ (<["b2" := entryB]> (<["c3" := entryC]> (<["a1" := entryA]> ∅))).

(** Two entries whose original texts, 400 and 303 characters long, have the
    same first 300 characters and differ after them. *)
Definition longText : string := string_of_list_ascii (replicate 400 "x"%char).
Definition longText' : string :=
  string_of_list_ascii (replicate 300 "x"%char) +:+ "yyy".
Definition entryLong : AnalysisEntry :=
  AnalysisEntry.mk "e1" "Interview" longText "analysis" "a" "Summarize X" 5.
Definition entryLong' : AnalysisEntry :=
  AnalysisEntry.mk "e1" "Interview" longText' "analysis" "a" "Summarize X" 5.

(** A template stored with creation timestamp 0, and the editor holding a
    new template with the same title and content. *)
Definition epoch : SavedPrompt := SavedPrompt.mk "x" "A" "B" (Some 0).
Definition epochDB : IDBDatabase := mkIDB (<["x" := epoch]> ∅) ∅.
(** The parsed file [[{"title":"A","content":"B"}]] and a file whose list
    has a [null] between two such objects. *)
Definition itemAB : PromptManager.ImportItem :=
  PromptManager.ItemObject (PromptManager.mkPartial None (Some "A") (Some "B") None).
Definition itemCD : PromptManager.ImportItem :=
  PromptManager.ItemObject (PromptManager.mkPartial None (Some "C") (Some "D") None).
Definition fileAB : PromptManager.Parsed := PromptManager.ParsedArray [itemAB].
Definition fileWithNull : PromptManager.Parsed :=
  PromptManager.ParsedArray [itemAB; PromptManager.ItemNull; itemCD].

Definition newAB : PromptManager.State :=
  PromptManager.changeContent "B"
    (PromptManager.changeTitle "A" (PromptManager.handleEdit None PromptManager.initial)).



(** A world in which [DBService.init] has not run yet. *)
Definition closed (d : IDBDatabase) : World := mkWorld d false [] [] 0 0 ANALYZER.

(** A session in which two analyses have been saved: their timestamps are
    the first two readings of the clock, and two identifiers are drawn. *)
Definition earlierA : AnalysisEntry :=
  AnalysisEntry.mk "uuid-0" "Earlier" "text zero" "analysis zero" "a" "Summarize X"
                   1700000000000.
Definition earlierB : AnalysisEntry :=
  AnalysisEntry.mk "uuid-1" "Later" "text one" "analysis one" "b" "Translate to French"
                   1700000000001.
Definition midSession : World :=
  mkWorld (mkIDB (store_prompts twoPrompts)
                 (<["uuid-0" := earlierA]> (<["uuid-1" := earlierB]> ∅)))
          true [] [] 2 2 ANALYZER.

(** The knowledge base showing the three entries. *)
Definition knowledgeBase : KnowledgeBase.State :=
  KnowledgeBase.mkState [entryC; entryB; entryA] EmptyString None EmptyString false [].
End Demo.

(** What [handleSave] stores: the identifier and the creation timestamp come
    from the edited template when they are truthy, otherwise from
    [crypto.randomUUID()] and [Date.now()]. *)
Definition savedId (env : Env) (w : World) (c : PromptManager.PartialPrompt) : string :=
  if JS.truthy_opt (PromptManager.p_id c)
  then default EmptyString (PromptManager.p_id c)
  else randomUUID env (uuidsDrawn w).

Definition savedCreatedAt (env : Env) (w : World) (c : PromptManager.PartialPrompt) : Z :=
  match PromptManager.p_createdAt c with
  | Some x => if JS.truthy_num x then x else dateNow env (clockReads w)
  | None => dateNow env (clockReads w)
  end.

(** ** Statements of the specification, read literally *)

(** A failing call makes [analyzeText] fail with a [GenerationError] that
    wraps the underlying failure. *)
Definition analyzeText_fails_with_GenerationError : Prop :=
  ∀ (env : Env) (w : World) (text promptInstruction : string) (e : Exn),
    generateContent env (GeminiService.analyzeParams text promptInstruction) = inl e →
    ∃ w',
      GeminiService.analyzeText text promptInstruction env w
      = (Thrown (GenerationError e), w').

(** Saving a template with a valid title and content, then listing: exactly
    one listed template has that title and content, and its identifier is
    not empty. *)
Definition exactly_one_with_title_and_content : Prop :=
  ∀ (env : Env) (w : World) (s : PromptManager.State) (t c : string),
    dbService_db w = true →
    keyedPrompts (store_prompts (indexedDB w)) →
    randomUUID env (uuidsDrawn w) ≠ EmptyString →
    PromptManager.p_title (PromptManager.currentPrompt s) = Some t →
    PromptManager.p_content (PromptManager.currentPrompt s) = Some c →
    t ≠ EmptyString → c ≠ EmptyString →
    ∃ s' w' l p,
      PromptManager.handleSave s env w = (Returned s', w')
      ∧ DBService.getAllPrompts env w' = (Returned l, w')
      ∧ filter (fun q => SavedPrompt.title q = t ∧ SavedPrompt.content q = c) l = [p]
      ∧ SavedPrompt.id p ≠ EmptyString.

(** Editing any stored template through the editor and saving: the stored
    template keeps its identifier and its creation timestamp. *)
Definition edit_keeps_id_and_timestamp : Prop :=
  ∀ (env : Env) (w : World) (p : SavedPrompt) (t c : string),
    dbService_db w = true →
    store_prompts (indexedDB w) !! SavedPrompt.id p = Some p →
    t ≠ EmptyString → c ≠ EmptyString →
    ∃ s' w',
      PromptManager.handleSave
        (PromptManager.changeContent c
           (PromptManager.changeTitle t
              (PromptManager.handleEdit (Some p) PromptManager.initial))) env w
      = (Returned s', w')
      ∧ store_prompts (indexedDB w') !! SavedPrompt.id p
        = Some (SavedPrompt.mk (SavedPrompt.id p) t c (SavedPrompt.createdAt p)).

(** * Properties *)

Ltac io_unfold :=
  unfold bind, ret, throw, try_catch, getEnv, getWorld, putWorld, alert,
         ai_models_generateContent, Date_now, crypto_randomUUID in *.

(** ** JavaScript primitives *)

Lemma truthy_true_iff (s : string) : JS.truthy s = true ↔ s ≠ EmptyString.
Proof. destruct s; simpl; split; intros; congruence. Qed.

Lemma truthy_false_iff (s : string) : JS.truthy s = false ↔ s = EmptyString.
Proof. destruct s; simpl; split; intros; congruence. Qed.

Lemma opt_or_else_cases (o : option string) (b : string) :
  (o = Some (JS.opt_or_else o b) ∧ JS.truthy_opt o = true)
  ∨ (JS.opt_or_else o b = b ∧ JS.truthy_opt o = false).
Proof.
  destruct o as [s|]; simpl; [|by right].
  unfold JS.or_else. destruct (JS.truthy s) eqn:E; [by left | by right].
Qed.

Lemma opt_or_else_truthy (o : option string) (b : string) :
  JS.truthy b = true → JS.truthy (JS.opt_or_else o b) = true.
Proof.
  intros Hb. destruct o as [s|]; simpl; [|done].
  unfold JS.or_else. by destruct (JS.truthy s) eqn:E.
Qed.

Lemma trimStart_whitespaceOnly (s : string) :
  whitespaceOnly s = true → JS.trimStart s = EmptyString.
Proof.
  induction s as [|c s IH]; simpl; [done|].
  intros [Hc Hs]%andb_true_iff. rewrite Hc. auto.
Qed.

Lemma trimEnd_empty_iff (s : string) :
  JS.trimEnd s = EmptyString ↔ whitespaceOnly s = true.
Proof.
  induction s as [|c s IH]; simpl; [done|].
  destruct (JS.trimEnd s) eqn:E.
  - destruct (JS.isWhiteSpace c); simpl; [|split; congruence].
    split; [intros _; by apply IH | done].
  - split; [done|]. intros [_ Hs]%andb_true_iff. apply IH in Hs. congruence.
Qed.

Lemma trimStart_suffix_blank (s : string) :
  whitespaceOnly (JS.trimStart s) = true → whitespaceOnly s = true.
Proof.
  induction s as [|c s IH]; simpl; [done|].
  destruct (JS.isWhiteSpace c) eqn:Hc; simpl; [auto|].
  rewrite Hc. done.
Qed.

(** [trim] gives the empty string exactly on the empty and the
    white-space-only strings. *)
Lemma trim_empty_iff (s : string) :
  JS.trim s = EmptyString ↔ whitespaceOnly s = true.
Proof.
  unfold JS.trim. rewrite trimEnd_empty_iff. split.
  - apply trimStart_suffix_blank.
  - intros H. by rewrite (trimStart_whitespaceOnly s H).
Qed.

(** ** The text-generation gateway *)

Section Gateway.
Variables (env : Env) (w : World).

(** [analyzeText] makes exactly one call and passes on what comes back. *)
Lemma analyzeText_eq (text instr : string) :
  GeminiService.analyzeText text instr env w =
    (match generateContent env (GeminiService.analyzeParams text instr) with
     | inl e => Thrown e
     | inr r => Returned (JS.opt_or_else (GenAI.text r) "No response generated.")
     end,
     logRequest (GeminiService.analyzeParams text instr) w).
Proof.
  unfold GeminiService.analyzeText. io_unfold.
  by destruct (generateContent env _).
Qed.

Lemma searchDatabase_eq (query : string) (entries : list AnalysisEntry) :
  GeminiService.searchDatabase query entries env w =
    (match generateContent env (GeminiService.searchParams env query entries) with
     | inl e => Thrown e
     | inr r =>
         Returned (JS.opt_or_else (GenAI.text r)
                                  "I couldn't find an answer in your database.")
     end,
     logRequest (GeminiService.searchParams env query entries) w).
Proof.
  unfold GeminiService.searchDatabase. io_unfold.
  by destruct (generateContent env _).
Qed.
End Gateway.

(** C10.  When [analyzeText] or [searchDatabase] returns normally, the
    string it returns is not empty: it is the text of the provider's
    response, or else the literal fallback of the function. *)
Theorem C10_returned_text_nonempty
    (env : Env) (w w' : World) (text instr query : string)
    (entries : list AnalysisEntry) (s : string) :
  GeminiService.analyzeText text instr env w = (Returned s, w')
  ∨ GeminiService.searchDatabase query entries env w = (Returned s, w') →
  s ≠ EmptyString
  ∧ ((∃ r, generateContent env (GeminiService.analyzeParams text instr) = inr r
           ∧ GenAI.text r = Some s)
     ∨ (∃ r, generateContent env (GeminiService.searchParams env query entries) = inr r
             ∧ GenAI.text r = Some s)
     ∨ s = "No response generated."
     ∨ s = "I couldn't find an answer in your database.").
Proof.
  intros [H|H].
  - rewrite analyzeText_eq in H.
    destruct (generateContent env _) as [e|r] eqn:Hg; [congruence|].
    injection H as Hs _. split.
    + apply truthy_true_iff. rewrite <- Hs. by apply opt_or_else_truthy.
    + destruct (opt_or_else_cases (GenAI.text r) "No response generated.")
        as [[Ht _]|[Ht _]]; rewrite Hs in Ht; eauto 6.
  - rewrite searchDatabase_eq in H.
    destruct (generateContent env _) as [e|r] eqn:Hg; [congruence|].
    injection H as Hs _. split.
    + apply truthy_true_iff. rewrite <- Hs. by apply opt_or_else_truthy.
    + destruct (opt_or_else_cases (GenAI.text r)
                  "I couldn't find an answer in your database.")
        as [[Ht _]|[Ht _]]; rewrite Hs in Ht; eauto 7.
Qed.

Lemma C10_returned_text_nonempty_witness :
  GeminiService.analyzeText "T" "Summarize X" (Demo.env Demo.silent)
    (Demo.world Demo.emptyDB)
  = (Returned "No response generated.",
     logRequest (GeminiService.analyzeParams "T" "Summarize X") (Demo.world Demo.emptyDB))
  ∧ "No response generated." ≠ EmptyString.
Proof.
  split; [reflexivity|].
  apply (C10_returned_text_nonempty (Demo.env Demo.silent) (Demo.world Demo.emptyDB)
           (logRequest (GeminiService.analyzeParams "T" "Summarize X")
                       (Demo.world Demo.emptyDB))
           "T" "Summarize X" "q" [] "No response generated.").
  left. reflexivity.
Defined.

(** ** Running an analysis *)

(** C4.  Submitting an empty or white-space-only input text: the handler
    sets the validation message and stops.  The gateway is not called (the
    log of requests, like the rest of the world, is the one before), and
    the result, the flag [isAnalyzing] and every other piece of component
    state keep their values. *)
Theorem C4_empty_input_blocks_analysis (s : Analyzer.State) (env : Env) (w : World) :
  whitespaceOnly (Analyzer.inputText s) = true →
  ∃ s',
    Analyzer.handleRunAnalysis s env w = (Returned s', w)
    ∧ Analyzer.error s' = Some "Please enter text to analyze."
    ∧ Analyzer.result s' = Analyzer.result s
    ∧ Analyzer.isAnalyzing s' = Analyzer.isAnalyzing s
    ∧ Analyzer.prompts s' = Analyzer.prompts s
    ∧ Analyzer.selectedPromptId s' = Analyzer.selectedPromptId s
    ∧ Analyzer.inputText s' = Analyzer.inputText s
    ∧ Analyzer.title s' = Analyzer.title s.
Proof.
  intros Hblank. apply trim_empty_iff in Hblank.
  exists (Analyzer.setError (Some "Please enter text to analyze.") s).
  unfold Analyzer.handleRunAnalysis. rewrite Hblank. simpl.
  repeat split; reflexivity.
Qed.

Lemma C4_empty_input_blocks_analysis_witness :
  ∃ s',
    Analyzer.handleRunAnalysis
      (Analyzer.mkState [SavedPrompt.mk "a" "Summary" "Summarize X" (Some 1)]
                        "a" "   " EmptyString false (Some "old result") None)
      (Demo.env (Demo.answers "R")) (Demo.world Demo.emptyDB)
    = (Returned s', Demo.world Demo.emptyDB)
    ∧ Analyzer.error s' = Some "Please enter text to analyze."
    ∧ Analyzer.result s' = Some "old result".
Proof.
  destruct (C4_empty_input_blocks_analysis
              (Analyzer.mkState [SavedPrompt.mk "a" "Summary" "Summarize X" (Some 1)]
                                "a" "   " EmptyString false (Some "old result") None)
              (Demo.env (Demo.answers "R")) (Demo.world Demo.emptyDB) eq_refl)
    as (s' & H1 & H2 & H3 & _).
  exists s'. auto.
Defined.

(** A submission that passes validation calls the gateway once, with the
    content of the selected template as instruction. *)
Lemma handleRunAnalysis_calls_once (s : Analyzer.State) (p : SavedPrompt) (env : Env) (w : World) :
  whitespaceOnly (Analyzer.inputText s) = false →
  Analyzer.selectedPromptId s ≠ EmptyString →
  Analyzer.findPrompt s = Some p →
  Analyzer.handleRunAnalysis s env w =
    (Returned
       (Analyzer.setIsAnalyzing false
          (match generateContent env
                   (GeminiService.analyzeParams (Analyzer.inputText s) (SavedPrompt.content p)) with
           | inl _ =>
               Analyzer.setError
                 (Some "Failed to generate analysis. Please check your connection and API key.")
                 (Analyzer.setResult None (Analyzer.setError None (Analyzer.setIsAnalyzing true s)))
           | inr r =>
               Analyzer.setResult
                 (Some (JS.opt_or_else (GenAI.text r) "No response generated."))
                 (Analyzer.setResult None (Analyzer.setError None (Analyzer.setIsAnalyzing true s)))
           end)),
     logRequest (GeminiService.analyzeParams (Analyzer.inputText s) (SavedPrompt.content p)) w).
Proof.
  intros Hin Hsel Hfind. unfold Analyzer.handleRunAnalysis.
  assert (JS.truthy (JS.trim (Analyzer.inputText s)) = true) as ->.
  { apply truthy_true_iff. intros E%trim_empty_iff. congruence. }
  apply truthy_true_iff in Hsel. rewrite Hsel, Hfind. simpl.
  unfold bind at 1. unfold try_catch. unfold bind at 1.
  rewrite analyzeText_eq.
  by destruct (generateContent env _).
Qed.

(** The error that [analyzeText] throws is the error of the call, never a
    [GenerationError] around it. *)
Lemma Exn_not_wrapped (e : Exn) : e ≠ GenerationError e.
Proof. induction e as [| | | |e IH]; try discriminate. intros [= H]. by apply IH. Qed.

Lemma analyzeText_never_wraps (env : Env) (w w' : World) (text promptInstruction : string)
    (e : Exn) :
  generateContent env (GeminiService.analyzeParams text promptInstruction) = inl e →
  GeminiService.analyzeText text promptInstruction env w ≠ (Thrown (GenerationError e), w').
Proof.
  intros Hfail. rewrite analyzeText_eq, Hfail. intros [= H _].
  by apply (Exn_not_wrapped e).
Qed.

(** C7.  The statement of the specification fails on the quota error of the
    example: [analyzeText] throws the provider's error as it is. *)
Lemma C7_counterexample : ¬ analyzeText_fails_with_GenerationError.
Proof.
  intros H.
  destruct (H (Demo.env Demo.fails) (Demo.world Demo.emptyDB) "T" "Summarize X"
              (Error "429 RESOURCE_EXHAUSTED") eq_refl) as (w' & Hrun).
  vm_compute in Hrun. discriminate Hrun.
Qed.

(** C7 (amended).  When the text-generation call fails with [e], whatever the cause,
    [analyzeText] fails with that very [e] after one call; the caller
    [handleRunAnalysis] receives it and shows the failure message, no
    result is set, and the log holds exactly one more request: the call is
    not repeated. *)
Theorem C7_generation_failure_surfaced_once
    (s : Analyzer.State) (p : SavedPrompt) (env : Env) (w : World) (e : Exn) :
  whitespaceOnly (Analyzer.inputText s) = false →
  Analyzer.selectedPromptId s ≠ EmptyString →
  Analyzer.findPrompt s = Some p →
  generateContent env
    (GeminiService.analyzeParams (Analyzer.inputText s) (SavedPrompt.content p)) = inl e →
  GeminiService.analyzeText (Analyzer.inputText s) (SavedPrompt.content p) env w
  = (Thrown e,
     logRequest (GeminiService.analyzeParams (Analyzer.inputText s) (SavedPrompt.content p)) w)
  ∧ ∃ s' w',
      Analyzer.handleRunAnalysis s env w = (Returned s', w')
      ∧ Analyzer.error s'
        = Some "Failed to generate analysis. Please check your connection and API key."
      ∧ Analyzer.result s' = None
      ∧ Analyzer.isAnalyzing s' = false
      ∧ requests w'
        = (requests w
           ++ [GeminiService.analyzeParams (Analyzer.inputText s) (SavedPrompt.content p)])%list
      ∧ indexedDB w' = indexedDB w.
Proof.
  intros Hin Hsel Hfind Hfail. split.
  - rewrite analyzeText_eq, Hfail. reflexivity.
  - eexists _, _. split.
    + rewrite (handleRunAnalysis_calls_once s p env w Hin Hsel Hfind), Hfail. reflexivity.
    + simpl. repeat split; reflexivity.
Qed.

Lemma C7_generation_failure_surfaced_once_witness :
  let s := Analyzer.mkState [SavedPrompt.mk "a" "Summary" "Summarize X" (Some 1)]
                            "a" "T" EmptyString false None None in
  GeminiService.analyzeText "T" "Summarize X" (Demo.env Demo.fails) (Demo.world Demo.emptyDB)
  = (Thrown (Error "429 RESOURCE_EXHAUSTED"),
     logRequest (GeminiService.analyzeParams "T" "Summarize X") (Demo.world Demo.emptyDB))
  ∧ ∃ s' w',
      Analyzer.handleRunAnalysis s (Demo.env Demo.fails) (Demo.world Demo.emptyDB)
      = (Returned s', w')
      ∧ Analyzer.error s'
        = Some "Failed to generate analysis. Please check your connection and API key."
      ∧ Analyzer.result s' = None
      ∧ Analyzer.isAnalyzing s' = false
      ∧ requests w' = [GeminiService.analyzeParams "T" "Summarize X"]
      ∧ indexedDB w' = Demo.emptyDB.
Proof.
  intros s.
  apply (C7_generation_failure_surfaced_once s
           (SavedPrompt.mk "a" "Summary" "Summarize X" (Some 1))
           (Demo.env Demo.fails) (Demo.world Demo.emptyDB)
           (Error "429 RESOURCE_EXHAUSTED")).
  - reflexivity.
  - discriminate.
  - reflexivity.
  - reflexivity.
Defined.

(** ** The context document of the knowledge base *)

Lemma join_concat (sep : string) (l : list string) : JS.join sep l = String.concat sep l.
Proof.
  induction l as [|x l IH]; [done|].
  destruct l as [|y l]; [done|].
  change (JS.join sep (x :: y :: l)) with (x +:+ sep +:+ JS.join sep (y :: l)).
  by rewrite IH.
Qed.

(** [substring(0, n)] is a prefix of the text, [n] characters long unless
    the text is shorter: it is the first [n] characters. *)
Lemma substring0_prefix (n : nat) (s : string) : ∃ rest, s = JS.substring0 n s +:+ rest.
Proof.
  unfold JS.substring0. revert s. induction n as [|n IH]; intros s.
  - exists s. by destruct s.
  - destruct s as [|c s]; [by exists EmptyString|].
    destruct (IH s) as [rest Hrest]. exists rest.
    change (String c s = String c (String.substring 0 n s +:+ rest)). by f_equal.
Qed.

Lemma substring0_length (n : nat) (s : string) :
  String.length (JS.substring0 n s) = Nat.min n (String.length s).
Proof.
  unfold JS.substring0. revert s. induction n as [|n IH]; intros s.
  - by destruct s.
  - destruct s as [|c s]; [done|]. simpl. by rewrite IH.
Qed.

Lemma substring0_take (n : nat) (s : string) :
  JS.substring0 n s = string_of_list_ascii (take n (list_ascii_of_string s)).
Proof.
  unfold JS.substring0. revert s. induction n as [|n IH]; intros s.
  - by destruct s.
  - destruct s as [|c s]; [done|]. simpl. by rewrite IH.
Qed.

Lemma Forall2_map_diag {A B} (P : A → B → Prop) (f : A → B) (l : list A) :
  (∀ x, P x (f x)) → Forall2 P l (map f l).
Proof. intros H. induction l as [|x l IH]; constructor; [apply H | exact IH]. Qed.

Lemma renderEntry_sameContribution (env : Env) (a b : AnalysisEntry) :
  sameContribution a b → GeminiService.renderEntry env a = GeminiService.renderEntry env b.
Proof.
  intros (Hid & Hts & Htitle & Han & Hex).
  unfold GeminiService.renderEntry.
  by rewrite !substring0_take, Hid, Hts, Htitle, Han, Hex.
Qed.

Lemma map_renderEntry_sameContribution (env : Env) (l l' : list AnalysisEntry) :
  Forall2 sameContribution l l' →
  map (GeminiService.renderEntry env) l = map (GeminiService.renderEntry env) l'.
Proof.
  induction 1 as [|a b l l' Hab _ IH]; simpl; [done|].
  by rewrite (renderEntry_sameContribution env a b Hab), IH.
Qed.

(** C3.  The context document of [searchDatabase] is made of one block per
    entry for the first 50 entries of the list, in their order, joined by
    newlines: [min 50 (length entries)] blocks.  The block of an entry
    spells out its identifier, its date, its title, its analysis text and
    an excerpt of its original text, the excerpt being the prefix of the
    original text that is 300 characters long (the whole text when it is
    shorter).  The request carries this document and the question.  An
    entry beyond the first 50 contributes nothing, and so does the rest of
    an original text after its first 300 characters: a list that agrees
    with the given one on the first 50 entries, up to identifier, date,
    title, analysis and first 300 characters, gives the same document and
    the same run. *)
Theorem C3_context_from_first_50_entries
    (env : Env) (w : World) (query : string) (entries : list AnalysisEntry) :
  let nl := String "010"%char EmptyString in
  ∃ blocks : list string,
    GeminiService.contextData env entries = String.concat nl blocks
    ∧ length blocks = Nat.min 50 (length entries)
    ∧ Forall2
        (fun e block =>
           ∃ excerpt rest,
             AnalysisEntry.originalText e = excerpt +:+ rest
             ∧ String.length excerpt
               = Nat.min 300 (String.length (AnalysisEntry.originalText e))
             ∧ block
               = nl +:+ "---" +:+ nl
                 +:+ "Entry ID: " +:+ AnalysisEntry.id e +:+ nl
                 +:+ "Date: " +:+ toLocaleDateString env (AnalysisEntry.timestamp e) +:+ nl
                 +:+ "Title: " +:+ AnalysisEntry.title e +:+ nl
                 +:+ "Summary/Analysis: " +:+ AnalysisEntry.analysis e +:+ nl
                 +:+ "Original Excerpt (First 300 chars): " +:+ excerpt +:+ "..." +:+ nl
                 +:+ "---" +:+ nl +:+ "        ")
        (take 50 entries) blocks
    ∧ GeminiService.searchDatabase query entries env w
      = (let params :=
           GenAI.mkParams "gemini-2.5-flash"
             [GenAI.mkContent "user"
                ["DATABASE CONTEXT:" +:+ nl +:+ String.concat nl blocks;
                 "USER QUESTION: " +:+ query]]
             (GenAI.mkConfig None (Some GeminiService.systemInstruction)) in
         (match generateContent env params with
          | inl e => Thrown e
          | inr r =>
              Returned (JS.opt_or_else (GenAI.text r)
                                       "I couldn't find an answer in your database.")
          end,
          logRequest params w))
    ∧ ∀ entries' : list AnalysisEntry,
        Forall2 sameContribution (take 50 entries) (take 50 entries') →
        GeminiService.contextData env entries' = GeminiService.contextData env entries
        ∧ GeminiService.searchDatabase query entries' env w
          = GeminiService.searchDatabase query entries env w.
Proof.
  intros nl.
  exists (map (GeminiService.renderEntry env) (take 50 entries)).
  assert (GeminiService.contextData env entries
          = String.concat nl (map (GeminiService.renderEntry env) (take 50 entries)))
    as Hdoc.
  { unfold GeminiService.contextData, JS.slice0. apply join_concat. }
  split; [exact Hdoc|].
  split; [by rewrite length_map, length_take|].
  split.
  { apply Forall2_map_diag. intros e.
    destruct (substring0_prefix 300 (AnalysisEntry.originalText e)) as [rest Hrest].
    exists (JS.substring0 300 (AnalysisEntry.originalText e)), rest.
    split; [exact Hrest|]. split; [apply substring0_length | reflexivity]. }
  split.
  { rewrite searchDatabase_eq. unfold GeminiService.searchParams. by rewrite Hdoc. }
  intros entries' Hsame.
  assert (GeminiService.contextData env entries' = GeminiService.contextData env entries)
    as Hctx.
  { unfold GeminiService.contextData, JS.slice0.
    by rewrite (map_renderEntry_sameContribution env _ _ Hsame). }
  split; [exact Hctx|].
  rewrite !searchDatabase_eq. unfold GeminiService.searchParams. by rewrite Hctx.
Qed.

Lemma C3_context_from_first_50_entries_witness :
  let old1 := AnalysisEntry.mk "e0" "Old" "first" "one" "a" "Summarize X" 1 in
  let old2 := AnalysisEntry.mk "e9" "Older" "second" "two" "b" "Translate" 0 in
  GeminiService.contextData (Demo.env Demo.silent)
    (replicate 50 Demo.entryLong' ++ [old2; old1])%list
  = GeminiService.contextData (Demo.env Demo.silent) (replicate 50 Demo.entryLong ++ [old1])%list
  ∧ GeminiService.searchDatabase "q" (replicate 50 Demo.entryLong' ++ [old2; old1])%list
      (Demo.env Demo.silent) (Demo.world Demo.emptyDB)
    = GeminiService.searchDatabase "q" (replicate 50 Demo.entryLong ++ [old1])%list
        (Demo.env Demo.silent) (Demo.world Demo.emptyDB).
Proof.
  intros old1 old2.
  destruct (C3_context_from_first_50_entries (Demo.env Demo.silent)
              (Demo.world Demo.emptyDB) "q" (replicate 50 Demo.entryLong ++ [old1])%list)
    as (blocks & _ & _ & _ & _ & Hsame).
  apply (Hsame (replicate 50 Demo.entryLong' ++ [old2; old1])%list).
  change (take 50 (replicate 50 Demo.entryLong ++ [old1])%list)
    with (replicate 50 Demo.entryLong).
  change (take 50 (replicate 50 Demo.entryLong' ++ [old2; old1])%list)
    with (replicate 50 Demo.entryLong').
  apply Forall2_replicate. repeat split; vm_compute; reflexivity.
Defined.

(** The document of a single entry with an original text of 400 characters:
    one block, with the first 300 of them. *)
Example contextData_entryLong :
  GeminiService.contextData (Demo.env Demo.silent) [Demo.entryLong]
  = JS.nl +:+ "---" +:+ JS.nl
    +:+ "Entry ID: e1" +:+ JS.nl
    +:+ "Date: 5" +:+ JS.nl
    +:+ "Title: Interview" +:+ JS.nl
    +:+ "Summary/Analysis: analysis" +:+ JS.nl
    +:+ "Original Excerpt (First 300 chars): "
    +:+ string_of_list_ascii (replicate 300 "x"%char) +:+ "..." +:+ JS.nl
    +:+ "---" +:+ JS.nl +:+ "        ".
Proof. vm_compute. reflexivity. Qed.

(** Fifty-one entries: the document has fifty blocks, and the last entry of
    the list is not in it. *)
Example contextData_drops_entry_51 :
  GeminiService.contextData (Demo.env Demo.silent) (replicate 50 Demo.entryA ++ [Demo.entryC])%list
  = GeminiService.contextData (Demo.env Demo.silent) (replicate 50 Demo.entryA).
Proof. vm_compute. reflexivity. Qed.

Lemma searchDatabase_nothing (env : Env) (w : World) (query : string)
    (entries : list AnalysisEntry) (r : GenAI.GenerateContentResponse) :
  generateContent env (GeminiService.searchParams env query entries) = inr r →
  returnsNothing r →
  GeminiService.searchDatabase query entries env w
  = (Returned "I couldn't find an answer in your database.",
     logRequest (GeminiService.searchParams env query entries) w).
Proof.
  intros Hresp Hnothing. rewrite searchDatabase_eq, Hresp.
  destruct (opt_or_else_cases (GenAI.text r)
              "I couldn't find an answer in your database.") as [[_ Ht]|[-> _]];
    [unfold returnsNothing in Hnothing; congruence | reflexivity].
Qed.

(** C8.  With no entry at all the context document is empty and
    [searchDatabase] still sends its request; nothing is thrown unless the
    call itself fails.  Whenever the provider returns nothing (for any entry
    list, the empty one included) the function returns the literal fallback
    and does not throw. *)
Theorem C8_empty_knowledge_base_fallback
    (env : Env) (w : World) (query : string) (entries : list AnalysisEntry)
    (r : GenAI.GenerateContentResponse) :
  generateContent env (GeminiService.searchParams env query entries) = inr r →
  returnsNothing r →
  GeminiService.searchDatabase query entries env w
  = (Returned "I couldn't find an answer in your database.",
     logRequest (GeminiService.searchParams env query entries) w)
  ∧ GeminiService.contextData env [] = EmptyString
  ∧ GeminiService.searchParams env query []
    = GenAI.mkParams "gemini-2.5-flash"
        [GenAI.mkContent "user"
           ["DATABASE CONTEXT:" +:+ JS.nl; "USER QUESTION: " +:+ query]]
        (GenAI.mkConfig None (Some GeminiService.systemInstruction))
  ∧ ∀ e w',
      GeminiService.searchDatabase query [] env w = (Thrown e, w') →
      generateContent env (GeminiService.searchParams env query []) = inl e.
Proof.
  intros Hresp Hnothing. split; [|split; [reflexivity|split; [reflexivity|]]].
  - by apply (searchDatabase_nothing env w query entries r).
  - intros e w'. rewrite searchDatabase_eq.
    destruct (generateContent env (GeminiService.searchParams env query []));
      congruence.
Qed.

Lemma C8_empty_knowledge_base_fallback_witness :
  GeminiService.searchDatabase "Who was interviewed?" []
    (Demo.env Demo.silent) (Demo.world Demo.emptyDB)
  = (Returned "I couldn't find an answer in your database.",
     logRequest (GeminiService.searchParams (Demo.env Demo.silent) "Who was interviewed?" [])
                (Demo.world Demo.emptyDB)).
Proof.
  apply (C8_empty_knowledge_base_fallback (Demo.env Demo.silent) (Demo.world Demo.emptyDB)
           "Who was interviewed?" [] (GenAI.mkResponse None)).
  - reflexivity.
  - reflexivity.
Defined.

(** The question handler of the knowledge base never throws: a failure of
    the gateway becomes an apology message in the conversation. *)
Lemma handleSmartSearch_completes (s : KnowledgeBase.State) (env : Env) (w : World) :
  ∃ s' w', KnowledgeBase.handleSmartSearch s env w = (Returned s', w').
Proof.
  unfold KnowledgeBase.handleSmartSearch.
  destruct (negb _); [by eexists _, _|].
  io_unfold. rewrite searchDatabase_eq.
  destruct (generateContent env _); by eexists _, _.
Qed.

(** A question asked over an empty knowledge base, provider silent: the
    conversation gains the question and the fallback answer. *)
Lemma handleSmartSearch_empty_base (q : string) (env : Env) (w : World)
    (r : GenAI.GenerateContentResponse) :
  whitespaceOnly q = false →
  generateContent env (GeminiService.searchParams env q []) = inr r →
  returnsNothing r →
  ∃ s' w',
    KnowledgeBase.handleSmartSearch (KnowledgeBase.setChatQuery q KnowledgeBase.initial) env w
    = (Returned s', w')
    ∧ KnowledgeBase.chatHistory s'
      = [ChatMessage.mk Role.user q (dateNow env (clockReads w));
         ChatMessage.mk Role.model "I couldn't find an answer in your database."
                        (dateNow env (S (clockReads w)))]
    ∧ requests w' = (requests w ++ [GeminiService.searchParams env q []])%list.
Proof.
  intros Hq Hresp Hnothing. unfold KnowledgeBase.handleSmartSearch. simpl.
  assert (JS.truthy (JS.trim q) = true) as ->.
  { apply truthy_true_iff. intros E%trim_empty_iff. congruence. }
  simpl. io_unfold.
  rewrite (searchDatabase_nothing env _ q [] r Hresp Hnothing).
  by eexists _, _.
Qed.

(** ** The local store *)

Section Store.
Variables (env : Env) (w : World).
Hypothesis Hinit : dbService_db w = true.

Lemma getStore_eq : DBService.getStore env w = (Returned (indexedDB w), w).
Proof. unfold DBService.getStore. io_unfold. by rewrite Hinit. Qed.

Lemma getAllPrompts_eq :
  DBService.getAllPrompts env w
  = (Returned (DBService.getAll (store_prompts (indexedDB w))), w).
Proof. unfold DBService.getAllPrompts. unfold bind. by rewrite getStore_eq. Qed.

Lemma getAllEntries_eq :
  DBService.getAllEntries env w
  = (Returned (reverse (DBService.index_getAll (store_entries (indexedDB w)))), w).
Proof. unfold DBService.getAllEntries. unfold bind. by rewrite getStore_eq. Qed.

Lemma savePrompt_eq (p : SavedPrompt) :
  DBService.savePrompt p env w
  = (Returned tt,
     set_indexedDB (mkIDB (<[SavedPrompt.id p := p]> (store_prompts (indexedDB w)))
                          (store_entries (indexedDB w))) w).
Proof.
  unfold DBService.savePrompt. unfold bind. rewrite getStore_eq.
  unfold DBService.putStore. by io_unfold.
Qed.

Lemma deletePrompt_eq (id : string) :
  DBService.deletePrompt id env w
  = (Returned tt,
     set_indexedDB (mkIDB (delete id (store_prompts (indexedDB w)))
                          (store_entries (indexedDB w))) w).
Proof.
  unfold DBService.deletePrompt. unfold bind. rewrite getStore_eq.
  unfold DBService.putStore. by io_unfold.
Qed.

Lemma saveEntry_eq (e : AnalysisEntry) :
  DBService.saveEntry e env w
  = (Returned tt,
     set_indexedDB (mkIDB (store_prompts (indexedDB w))
                          (<[AnalysisEntry.id e := e]> (store_entries (indexedDB w)))) w).
Proof.
  unfold DBService.saveEntry. unfold bind. rewrite getStore_eq.
  unfold DBService.putStore. by io_unfold.
Qed.
End Store.

(** [getAll] lists the records of the store, each once. *)
Lemma getAll_Permutation {V} (m : gmap string V) :
  DBService.getAll m ≡ₚ (map_to_list m).*2.
Proof. unfold DBService.getAll. by rewrite merge_sort_Permutation. Qed.

Lemma elem_of_getAll {V} (m : gmap string V) (x : V) :
  x ∈ DBService.getAll m ↔ ∃ k, m !! k = Some x.
Proof.
  rewrite getAll_Permutation, list_elem_of_fmap. split.
  - intros ([k y] & -> & Hin). exists k. by apply elem_of_map_to_list.
  - intros (k & Hk). exists (k, x). split; [done|]. by apply elem_of_map_to_list.
Qed.

Lemma length_getAll {V} (m : gmap string V) : length (DBService.getAll m) = size m.
Proof. by rewrite getAll_Permutation, length_fmap, length_map_to_list. Qed.

Lemma getAll_nil_iff {V} (m : gmap string V) : DBService.getAll m = [] ↔ m = ∅.
Proof.
  split.
  - intros H. apply map_size_empty_iff. by rewrite <- length_getAll, H.
  - intros ->. apply length_zero_iff_nil. by rewrite length_getAll, map_size_empty.
Qed.

(** Before [init] every operation of the store throws and changes nothing. *)
Lemma getStore_not_initialized (env : Env) (w : World) :
  dbService_db w = false →
  DBService.getStore env w = (Thrown (Error "DB not initialized"), w).
Proof. intros H. unfold DBService.getStore. io_unfold. by rewrite H. Qed.

Lemma init_sets_db (env : Env) (w : World) :
  dbService_db w = true ∨ openError env = None →
  ∃ w', DBService.init env w = (Returned tt, w')
        ∧ dbService_db w' = true ∧ indexedDB w' = indexedDB w.
Proof.
  unfold DBService.init. io_unfold.
  destruct (dbService_db w) eqn:E; [intros _; by exists w|].
  intros [?|Hopen]; [done|]. rewrite Hopen. eexists; split; [reflexivity|]. done.
Qed.


(** *** The order of the index [timestamp] *)

#[local] Instance index_le_total : Total DBService.index_le.
Proof.
  intros a b. unfold DBService.index_le.
  destruct (Z.lt_trichotomy (AnalysisEntry.timestamp a) (AnalysisEntry.timestamp b))
    as [H|[H|H]]; [by left; left| |by right; left].
  destruct (total String.le (AnalysisEntry.id a) (AnalysisEntry.id b)); [left|right];
    right; by split.
Qed.

#[local] Instance index_le_trans : Transitive DBService.index_le.
Proof.
  intros a b c [H1|[H1 L1]] [H2|[H2 L2]]; unfold DBService.index_le.
  - left. lia.
  - left. lia.
  - left. lia.
  - right. split; [lia|]. by etrans.
Qed.

Lemma StronglySorted_weaken {A} (R R' : relation A) (l : list A) :
  (∀ a b, R a b → R' a b) → StronglySorted R l → StronglySorted R' l.
Proof.
  intros Himpl. induction 1 as [|a l _ IH Hall]; constructor; [done|].
  eapply Forall_impl; [exact Hall|]. auto.
Qed.

Lemma index_getAll_descending (m : gmap string AnalysisEntry) :
  StronglySorted (flip DBService.index_le) (reverse (DBService.index_getAll m)).
Proof.
  apply Sorted_StronglySorted.
  - intros a b c Hab Hbc. unfold flip in *. by etrans.
  - apply Sorted_reverse. unfold DBService.index_getAll. apply Sorted_merge_sort. apply _.
Qed.

Lemma index_getAll_Permutation (m : gmap string AnalysisEntry) :
  reverse (DBService.index_getAll m) ≡ₚ (map_to_list m).*2.
Proof.
  rewrite reverse_Permutation. unfold DBService.index_getAll.
  apply merge_sort_Permutation.
Qed.

(** C2.  On an initialised store [getAllEntries] returns every stored
    entry exactly once, newest first; entries with the same timestamp come
    in descending order of their identifier, so the order is fixed by the
    stored data.  The call leaves the world as it was, and a second call
    with no write in between returns the same list. *)
Theorem C2_entries_listed_newest_first (env : Env) (w : World) :
  dbService_db w = true →
  ∃ l : list AnalysisEntry,
    DBService.getAllEntries env w = (Returned l, w)
    ∧ l ≡ₚ (map_to_list (store_entries (indexedDB w))).*2
    ∧ StronglySorted
        (fun a b => (AnalysisEntry.timestamp b ≤ AnalysisEntry.timestamp a)%Z) l
    ∧ StronglySorted
        (fun a b => AnalysisEntry.timestamp a = AnalysisEntry.timestamp b →
                    String.le (AnalysisEntry.id b) (AnalysisEntry.id a)) l
    ∧ (l1 <- DBService.getAllEntries ;; l2 <- DBService.getAllEntries ;; ret (l1, l2)) env w
      = (Returned (l, l), w).
Proof.
  intros Hinit.
  exists (reverse (DBService.index_getAll (store_entries (indexedDB w)))).
  split; [by apply getAllEntries_eq|].
  split; [apply index_getAll_Permutation|].
  split; [|split].
  - eapply StronglySorted_weaken; [|apply index_getAll_descending].
    intros a b [H|[H _]]; lia.
  - eapply StronglySorted_weaken; [|apply index_getAll_descending].
    intros a b [H|[_ H]] Heq; [lia|done].
  - unfold bind, ret. by rewrite !getAllEntries_eq.
Qed.

Lemma C2_entries_listed_newest_first_witness :
  ∃ l : list AnalysisEntry,
    DBService.getAllEntries (Demo.env Demo.silent) (Demo.world Demo.threeEntries)
    = (Returned l, Demo.world Demo.threeEntries)
    ∧ l ≡ₚ (map_to_list (store_entries Demo.threeEntries)).*2
    ∧ StronglySorted
        (fun a b => (AnalysisEntry.timestamp b ≤ AnalysisEntry.timestamp a)%Z) l.
Proof.
  destruct (C2_entries_listed_newest_first (Demo.env Demo.silent)
              (Demo.world Demo.threeEntries) eq_refl) as (l & H1 & H2 & H3 & _).
  exists l. auto.
Defined.

(** The listing of the three example entries: the newest first, the two
    entries of equal timestamp by descending identifier. *)
Example getAllEntries_threeEntries :
  DBService.getAllEntries (Demo.env Demo.silent) (Demo.world Demo.threeEntries)
  = (Returned [Demo.entryC; Demo.entryB; Demo.entryA], Demo.world Demo.threeEntries).
Proof. vm_compute. reflexivity. Qed.

(** The listing does not depend on the order in which entries were saved. *)
Lemma getAllEntries_insertion_order (env : Env) (w : World) (a b : AnalysisEntry) :
  dbService_db w = true →
  AnalysisEntry.id a ≠ AnalysisEntry.id b →
  (DBService.saveEntry a ;;; DBService.saveEntry b ;;; DBService.getAllEntries) env w
  = (DBService.saveEntry b ;;; DBService.saveEntry a ;;; DBService.getAllEntries) env w.
Proof.
  intros Hinit Hne.
  unfold DBService.saveEntry, DBService.getAllEntries, DBService.getStore, DBService.putStore.
  io_unfold. repeat (rewrite Hinit; simpl).
  by rewrite (insert_insert_ne _ (AnalysisEntry.id b) (AnalysisEntry.id a)).
Qed.

(** *** Templates and entries are separate stores *)

Lemma savePrompt_keeps_entries (p : SavedPrompt) (env : Env) (w w' : World) (o : Outcome unit) :
  DBService.savePrompt p env w = (o, w') →
  store_entries (indexedDB w') = store_entries (indexedDB w).
Proof.
  unfold DBService.savePrompt, DBService.getStore, DBService.putStore. io_unfold.
  destruct (dbService_db w); intros [= _ <-]; reflexivity.
Qed.

Lemma deletePrompt_keeps_entries (id : string) (env : Env) (w w' : World) (o : Outcome unit) :
  DBService.deletePrompt id env w = (o, w') →
  store_entries (indexedDB w') = store_entries (indexedDB w).
Proof.
  unfold DBService.deletePrompt, DBService.getStore, DBService.putStore. io_unfold.
  destruct (dbService_db w); intros [= _ <-]; reflexivity.
Qed.

(** Deleting an identifier that is not stored changes nothing. *)
Lemma deletePrompt_absent (id : string) (env : Env) (w : World) :
  dbService_db w = true →
  store_prompts (indexedDB w) !! id = None →
  ∃ w', DBService.deletePrompt id env w = (Returned tt, w') ∧ indexedDB w' = indexedDB w.
Proof.
  intros Hinit Hnone. rewrite deletePrompt_eq by done. eexists; split; [reflexivity|].
  simpl. rewrite delete_id by done. by destruct (indexedDB w).
Qed.

(** *** Listing after a put *)

Lemma keyedPrompts_insert (m : gmap string SavedPrompt) (p : SavedPrompt) :
  keyedPrompts m → keyedPrompts (<[SavedPrompt.id p := p]> m).
Proof. intros Hm. by apply map_Forall_insert_2. Qed.

Lemma keyedPrompts_delete (m : gmap string SavedPrompt) (k : string) :
  keyedPrompts m → keyedPrompts (delete k m).
Proof. intros Hm. by apply map_Forall_delete. Qed.

Lemma keyedPrompts_empty : keyedPrompts ∅.
Proof. apply map_Forall_empty. Qed.

(** After [put p], the listing holds [p] and, of the records that were
    there, those under another key. *)
Lemma listing_insert (m : gmap string SavedPrompt) (p : SavedPrompt) :
  (map_to_list (<[SavedPrompt.id p := p]> m)).*2
  ≡ₚ p :: (map_to_list (delete (SavedPrompt.id p) m)).*2.
Proof.
  rewrite <- (insert_delete_eq m).
  by rewrite map_to_list_insert by apply lookup_delete_eq.
Qed.

Lemma filter_none {A} (P : A → Prop) `{!∀ x, Decision (P x)} (l : list A) :
  (∀ x, x ∈ l → ¬ P x) → filter P l = [].
Proof.
  induction l as [|x l IH]; intros Hl; [done|].
  rewrite filter_cons_False by (apply Hl; left).
  apply IH. intros y Hy. apply Hl. by right.
Qed.

Lemma listing_insert_filter (P : SavedPrompt → Prop) `{!∀ q, Decision (P q)}
    (m : gmap string SavedPrompt) (p : SavedPrompt) :
  P p →
  (∀ k q, m !! k = Some q → k ≠ SavedPrompt.id p → ¬ P q) →
  filter P (map_to_list (<[SavedPrompt.id p := p]> m)).*2 = [p].
Proof.
  intros Hp Hothers. apply Permutation_singleton_r.
  rewrite listing_insert, filter_cons_True by done.
  assert (filter P (map_to_list (delete (SavedPrompt.id p) m)).*2 = []) as ->; [|done].
  apply filter_none. intros q Hq.
  apply list_elem_of_fmap in Hq as ([k q'] & -> & Hin). simpl.
  apply elem_of_map_to_list in Hin.
  apply lookup_delete_Some in Hin as [Hne Hin]. eauto.
Qed.

Lemma listing_overwrite_length (m : gmap string SavedPrompt) (p old : SavedPrompt) :
  m !! SavedPrompt.id p = Some old →
  length (map_to_list (<[SavedPrompt.id p := p]> m)).*2 = length (map_to_list m).*2.
Proof.
  intros Hold. rewrite !length_fmap, !length_map_to_list.
  by apply map_size_insert_Some.
Qed.

Lemma getAll_insert_filter (P : SavedPrompt → Prop) `{!∀ q, Decision (P q)}
    (m : gmap string SavedPrompt) (p : SavedPrompt) :
  P p →
  (∀ k q, m !! k = Some q → k ≠ SavedPrompt.id p → ¬ P q) →
  filter P (DBService.getAll (<[SavedPrompt.id p := p]> m)) = [p].
Proof.
  intros Hp Hothers. apply Permutation_singleton_r.
  by rewrite getAll_Permutation, (listing_insert_filter P m p Hp Hothers).
Qed.

Lemma getAll_overwrite_length (m : gmap string SavedPrompt) (p old : SavedPrompt) :
  m !! SavedPrompt.id p = Some old →
  length (DBService.getAll (<[SavedPrompt.id p := p]> m)) = length (DBService.getAll m).
Proof. intros Hold. rewrite !length_getAll. by apply map_size_insert_Some. Qed.

(** ** The template editor *)

Lemma PromptManager_handleSave_spec
    (env : Env) (w : World) (s : PromptManager.State) (t c : string) :
  dbService_db w = true →
  PromptManager.p_title (PromptManager.currentPrompt s) = Some t →
  PromptManager.p_content (PromptManager.currentPrompt s) = Some c →
  t ≠ EmptyString → c ≠ EmptyString →
  let p := SavedPrompt.mk (savedId env w (PromptManager.currentPrompt s)) t c
                          (Some (savedCreatedAt env w (PromptManager.currentPrompt s))) in
  let d := mkIDB (<[SavedPrompt.id p := p]> (store_prompts (indexedDB w)))
                 (store_entries (indexedDB w)) in
  ∃ w',
    PromptManager.handleSave s env w
    = (Returned (PromptManager.mkState (DBService.getAll (store_prompts d)) false
                                       (PromptManager.currentPrompt s)), w')
    ∧ indexedDB w' = d
    ∧ dbService_db w' = true
    ∧ requests w' = requests w
    ∧ alerts w' = alerts w
    ∧ (JS.truthy_opt (PromptManager.p_id (PromptManager.currentPrompt s)) = true →
       uuidsDrawn w' = uuidsDrawn w).
Proof.
  intros Hinit Ht Hc Htne Hcne p d. subst p d.
  apply truthy_true_iff in Htne, Hcne.
  unfold PromptManager.handleSave, savedId, savedCreatedAt.
  rewrite Ht, Hc, Htne, Hcne. simpl.
  unfold PromptManager.id_or_randomUUID, PromptManager.createdAt_or_now,
    PromptManager.loadPrompts, DBService.savePrompt, DBService.getAllPrompts,
    DBService.getStore, DBService.putStore.
  destruct (PromptManager.p_id (PromptManager.currentPrompt s)) as [i|];
    destruct (PromptManager.p_createdAt (PromptManager.currentPrompt s)) as [x|];
    simpl;
    try destruct (JS.truthy i); try destruct (JS.truthy_num x);
    io_unfold; simpl; repeat (rewrite Hinit; simpl);
    (eexists; split; [reflexivity|]; simpl; repeat split;
     try reflexivity; try discriminate; try exact Hinit).
Qed.

Lemma C5_counterexample : ¬ exactly_one_with_title_and_content.
Proof.
  intros H.
  destruct (H (Demo.env Demo.silent) (Demo.world Demo.epochDB) Demo.newAB "A" "B")
    as (s' & w' & l & p & Hsave & Hlist & Hfilter & _);
    try reflexivity; try discriminate.
  { apply map_Forall_insert_2; [reflexivity | apply map_Forall_empty]. }
  vm_compute in Hsave. injection Hsave as <- <-.
  vm_compute in Hlist. injection Hlist as <-.
  vm_compute in Hfilter. discriminate Hfilter.
Qed.

(** The same run, spelled out: after saving a new template "A"/"B" next to
    a stored one with this title and content, the listing holds both. *)
Example handleSave_same_title_twice :
  ∃ s' w',
    PromptManager.handleSave Demo.newAB (Demo.env Demo.silent) (Demo.world Demo.epochDB)
    = (Returned s', w')
    ∧ PromptManager.prompts s'
      ≡ₚ [Demo.epoch; SavedPrompt.mk "uuid-0" "A" "B" (Some 1700000000000)].
Proof.
  eexists _, _. split; [vm_compute; reflexivity|].
  simpl. apply Permutation_swap || reflexivity.
Qed.

(** C5 (amended).  Saving a template with a non-empty title and content,
    then listing: exactly one listed template has the saved identifier; it
    carries that title and content and its identifier is not empty.  It is
    also the only one with that title and content when no template stored
    under another identifier has them.  Saving again under the same
    identifier replaces the stored template by the new one as a whole: the
    listing has one template with this identifier, the new one, and is no
    longer than before. *)
Theorem C5_save_then_list_one_per_identifier
    (env : Env) (w : World) (s : PromptManager.State) (t c : string) :
  dbService_db w = true →
  keyedPrompts (store_prompts (indexedDB w)) →
  randomUUID env (uuidsDrawn w) ≠ EmptyString →
  PromptManager.p_title (PromptManager.currentPrompt s) = Some t →
  PromptManager.p_content (PromptManager.currentPrompt s) = Some c →
  t ≠ EmptyString → c ≠ EmptyString →
  ∃ s' w' l p,
    PromptManager.handleSave s env w = (Returned s', w')
    ∧ DBService.getAllPrompts env w' = (Returned l, w')
    ∧ PromptManager.prompts s' = l
    ∧ SavedPrompt.title p = t ∧ SavedPrompt.content p = c
    ∧ SavedPrompt.id p ≠ EmptyString
    ∧ filter (fun q => SavedPrompt.id q = SavedPrompt.id p) l = [p]
    ∧ ((∀ k q, store_prompts (indexedDB w) !! k = Some q → k ≠ SavedPrompt.id p →
               ¬ (SavedPrompt.title q = t ∧ SavedPrompt.content q = c)) →
       filter (fun q => SavedPrompt.title q = t ∧ SavedPrompt.content q = c) l = [p])
    ∧ ∀ p2, SavedPrompt.id p2 = SavedPrompt.id p →
        ∃ w'' l2,
          DBService.savePrompt p2 env w' = (Returned tt, w'')
          ∧ DBService.getAllPrompts env w'' = (Returned l2, w'')
          ∧ filter (fun q => SavedPrompt.id q = SavedPrompt.id p) l2 = [p2]
          ∧ length l2 = length l.
Proof.
  intros Hinit Hkeyed Huuid Ht Hc Htne Hcne.
  destruct (PromptManager_handleSave_spec env w s t c Hinit Ht Hc Htne Hcne)
    as (w' & Hrun & Hdb & Hinit' & _).
  set (p := SavedPrompt.mk (savedId env w (PromptManager.currentPrompt s)) t c
              (Some (savedCreatedAt env w (PromptManager.currentPrompt s)))) in *.
  set (m := store_prompts (indexedDB w)) in *.
  eexists _, w', _, p. split; [exact Hrun|].
  split; [rewrite (getAllPrompts_eq env w' Hinit'), Hdb; reflexivity|].
  split; [reflexivity|]. split; [reflexivity|]. split; [reflexivity|].
  split.
  { simpl. unfold savedId.
    destruct (PromptManager.p_id (PromptManager.currentPrompt s)) as [i|]; simpl; [|done].
    destruct (JS.truthy i) eqn:Hi; [by apply truthy_true_iff|done]. }
  split.
  { simpl. apply (getAll_insert_filter (fun q => SavedPrompt.id q = SavedPrompt.id p) m p);
      [reflexivity|].
    intros k q Hk Hne Hq. apply Hkeyed in Hk. simpl in Hk. congruence. }
  split.
  { intros Hothers. simpl.
    apply (getAll_insert_filter
             (fun q => SavedPrompt.title q = t ∧ SavedPrompt.content q = c) m p);
      [by split | exact Hothers]. }
  intros p2 Hid.
  pose proof (savePrompt_eq env w' Hinit' p2) as Hsave2.
  eexists _, _. split; [exact Hsave2|].
  split; [by apply getAllPrompts_eq|].
  simpl. rewrite Hdb. simpl. split.
  - apply (getAll_insert_filter (fun q => SavedPrompt.id q = SavedPrompt.id p)
             (<[SavedPrompt.id p := p]> m) p2); [exact Hid|].
    intros k q Hk Hne Hq. apply (keyedPrompts_insert m p Hkeyed) in Hk. simpl in Hk.
    congruence.
  - apply (getAll_overwrite_length (<[SavedPrompt.id p := p]> m) p2 p).
    rewrite Hid. apply lookup_insert_eq.
Qed.

Lemma C5_save_then_list_one_per_identifier_witness :
  ∃ s' w' l p,
    PromptManager.handleSave Demo.newAB (Demo.env Demo.silent) (Demo.world Demo.epochDB)
    = (Returned s', w')
    ∧ DBService.getAllPrompts (Demo.env Demo.silent) w' = (Returned l, w')
    ∧ SavedPrompt.title p = "A" ∧ SavedPrompt.content p = "B"
    ∧ SavedPrompt.id p ≠ EmptyString
    ∧ filter (fun q => SavedPrompt.id q = SavedPrompt.id p) l = [p].
Proof.
  destruct (C5_save_then_list_one_per_identifier (Demo.env Demo.silent)
              (Demo.world Demo.epochDB) Demo.newAB "A" "B")
    as (s' & w' & l & p & H1 & H2 & _ & H4 & H5 & H6 & H7 & _).
  - reflexivity.
  - apply map_Forall_insert_2; [reflexivity | apply map_Forall_empty].
  - discriminate.
  - reflexivity.
  - reflexivity.
  - discriminate.
  - discriminate.
  - exists s', w', l, p. auto 10.
Defined.

Lemma C9_counterexample : ¬ edit_keeps_id_and_timestamp.
Proof.
  intros H.
  destruct (H (Demo.env Demo.silent) (Demo.world Demo.epochDB) Demo.epoch "A" "B revised")
    as (s' & w' & Hsave & Hstored);
    try reflexivity; try discriminate.
  vm_compute in Hsave. injection Hsave as <- <-.
  vm_compute in Hstored. discriminate Hstored.
Qed.

(** The same run, spelled out: the template stored with creation timestamp
    0 comes back from the editor with the time of the save. *)
Example handleSave_epoch_template :
  ∃ s' w',
    PromptManager.handleSave
      (PromptManager.changeContent "B revised"
         (PromptManager.changeTitle "A"
            (PromptManager.handleEdit (Some Demo.epoch) PromptManager.initial)))
      (Demo.env Demo.silent) (Demo.world Demo.epochDB)
    = (Returned s', w')
    ∧ store_prompts (indexedDB w') !! "x"
      = Some (SavedPrompt.mk "x" "A" "B revised" (Some 1700000000000)).
Proof. eexists _, _. split; vm_compute; reflexivity. Qed.

(** C9 (amended).  Editing a stored template whose identifier is not empty
    and whose creation timestamp is present and not 0, then saving with a
    non-empty title and content: the template written has the same
    identifier and the same creation timestamp, with the new title and
    content; it replaces the old one under the same key, every other
    template stays, and neither a new identifier nor the clock is drawn. *)
Theorem C9_edit_preserves_id_and_timestamp
    (env : Env) (w : World) (p : SavedPrompt) (t c : string) (created : Z) :
  dbService_db w = true →
  store_prompts (indexedDB w) !! SavedPrompt.id p = Some p →
  SavedPrompt.id p ≠ EmptyString →
  SavedPrompt.createdAt p = Some created → created ≠ 0 →
  t ≠ EmptyString → c ≠ EmptyString →
  ∃ s' w',
    PromptManager.handleSave
      (PromptManager.changeContent c
         (PromptManager.changeTitle t
            (PromptManager.handleEdit (Some p) PromptManager.initial))) env w
    = (Returned s', w')
    ∧ store_prompts (indexedDB w') !! SavedPrompt.id p
      = Some (SavedPrompt.mk (SavedPrompt.id p) t c (SavedPrompt.createdAt p))
    ∧ (∀ k, k ≠ SavedPrompt.id p →
            store_prompts (indexedDB w') !! k = store_prompts (indexedDB w) !! k)
    ∧ store_entries (indexedDB w') = store_entries (indexedDB w)
    ∧ uuidsDrawn w' = uuidsDrawn w.
Proof.
  intros Hinit Hstored Hid Hcreated Hnz Htne Hcne.
  set (s := PromptManager.changeContent c
              (PromptManager.changeTitle t
                 (PromptManager.handleEdit (Some p) PromptManager.initial))).
  destruct (PromptManager_handleSave_spec env w s t c Hinit eq_refl eq_refl Htne Hcne)
    as (w' & Hrun & Hdb & _ & _ & _ & Huuid).
  assert (savedId env w (PromptManager.currentPrompt s) = SavedPrompt.id p) as Hsid.
  { unfold savedId. simpl. apply truthy_true_iff in Hid. by rewrite Hid. }
  assert (savedCreatedAt env w (PromptManager.currentPrompt s) = created) as Hsc.
  { unfold savedCreatedAt. simpl. rewrite Hcreated. unfold JS.truthy_num.
    destruct (Z.eqb_spec created 0); [done|reflexivity]. }
  rewrite Hsid, Hsc in Hdb. simpl in Hdb.
  eexists _, w'. split; [exact Hrun|]. rewrite Hdb. simpl.
  split; [by rewrite lookup_insert_eq, Hcreated|].
  split; [intros k Hk; by rewrite lookup_insert_ne|].
  split; [reflexivity|].
  apply Huuid. simpl. by apply truthy_true_iff.
Qed.

Lemma C9_edit_preserves_id_and_timestamp_witness :
  ∃ s' w',
    PromptManager.handleSave
      (PromptManager.changeContent "Summarize Y"
         (PromptManager.changeTitle "Summary"
            (PromptManager.handleEdit (Some Demo.summarize) PromptManager.initial)))
      (Demo.env Demo.silent) (Demo.world Demo.twoPrompts)
    = (Returned s', w')
    ∧ store_prompts (indexedDB w') !! "a"
      = Some (SavedPrompt.mk "a" "Summary" "Summarize Y" (Some 1699999999000)).
Proof.
  destruct (C9_edit_preserves_id_and_timestamp (Demo.env Demo.silent)
              (Demo.world Demo.twoPrompts) Demo.summarize "Summary" "Summarize Y"
              1699999999000)
    as (s' & w' & H1 & H2 & _).
  - reflexivity.
  - reflexivity.
  - discriminate.
  - reflexivity.
  - discriminate.
  - discriminate.
  - discriminate.
  - exists s', w'. split; [exact H1 | exact H2].
Defined.

(** ** Saving an analysis *)

(** What [handleSave] of the analyzer writes: the entry takes its prompt
    identifier and its prompt snapshot from the template that is selected
    when the entry is saved. *)
Lemma Analyzer_handleSave_spec
    (env : Env) (w : World) (s : Analyzer.State) (r : string) (p : SavedPrompt) :
  dbService_db w = true →
  Analyzer.result s = Some r → r ≠ EmptyString →
  Analyzer.selectedPromptId s ≠ EmptyString →
  Analyzer.findPrompt s = Some p →
  ∃ e w',
    Analyzer.handleSave App_onSaveComplete s env w
    = (Returned (Analyzer.setTitle EmptyString
                   (Analyzer.setResult None (Analyzer.setInputText EmptyString s))), w')
    ∧ store_entries (indexedDB w')
      = <[AnalysisEntry.id e := e]> (store_entries (indexedDB w))
    ∧ store_prompts (indexedDB w') = store_prompts (indexedDB w)
    ∧ AnalysisEntry.id e = randomUUID env (uuidsDrawn w)
    ∧ AnalysisEntry.originalText e = Analyzer.inputText s
    ∧ AnalysisEntry.analysis e = r
    ∧ AnalysisEntry.promptId e = SavedPrompt.id p
    ∧ AnalysisEntry.promptSnapshot e = SavedPrompt.content p
    ∧ view w' = DATABASE.
Proof.
  intros Hinit Hres Hr Hsel Hfind.
  apply truthy_true_iff in Hr, Hsel.
  unfold Analyzer.handleSave. rewrite Hres, Hr, Hsel, Hfind. simpl.
  unfold App_onSaveComplete, DBService.saveEntry, DBService.getStore, DBService.putStore.
  destruct (JS.truthy (Analyzer.title s));
    io_unfold; simpl; repeat (rewrite Hinit; simpl);
    (eexists (AnalysisEntry.mk _ _ _ _ _ _ _), _; split; [reflexivity|];
     repeat split; reflexivity).
Qed.

(** No run of operations on the template collection touches the entries. *)
Lemma runTemplateOps_keeps_entries (ops : list TemplateOp) :
  ∀ (env : Env) (w w' : World) (o : Outcome unit),
    runTemplateOps ops env w = (o, w') →
    store_entries (indexedDB w') = store_entries (indexedDB w).
Proof.
  induction ops as [|op ops IH]; intros env w w' o; simpl.
  - unfold ret. by intros [= _ <-].
  - unfold bind. destruct (runTemplateOp op env w) as [o1 w1] eqn:Hop.
    assert (store_entries (indexedDB w1) = store_entries (indexedDB w)) as Hframe.
    { destruct op; simpl in Hop;
        eauto using savePrompt_keeps_entries, deletePrompt_keeps_entries. }
    destruct o1; [|intros [= _ <-]; exact Hframe].
    intros Hrest. rewrite <- Hframe. eauto.
Qed.

(** X11.  A saved entry stays as it is, whatever happens to the templates
    afterwards. *)
Lemma saved_entry_immutable (ops : list TemplateOp) (env : Env) (w w' : World)
    (o : Outcome unit) (k : string) :
  runTemplateOps ops env w = (o, w') →
  store_entries (indexedDB w') !! k = store_entries (indexedDB w) !! k.
Proof. intros H. by rewrite (runTemplateOps_keeps_entries ops env w w' o H). Qed.

(** C1.  A run of the analyzer in which the snapshot differs from the
    instruction of the generation: the analysis is generated with the
    template "a" selected (the request carries "Summarize X"), the
    selection is then moved to "b", and the entry saved next records
    template "b" and its content as prompt and snapshot. *)
Theorem C1_snapshot_follows_selection_at_save :
  ∃ s1 w1 s2 w2 e,
    Analyzer.handleRunAnalysis Demo.analyzer (Demo.env (Demo.answers "R"))
      (Demo.world Demo.twoPrompts) = (Returned s1, w1)
    ∧ requests w1 = [GeminiService.analyzeParams "T" "Summarize X"]
    ∧ Analyzer.result s1 = Some "R"
    ∧ Analyzer.handleSave App_onSaveComplete (Analyzer.setSelectedPromptId "b" s1)
        (Demo.env (Demo.answers "R")) w1 = (Returned s2, w2)
    ∧ store_entries (indexedDB w2) !! "uuid-0" = Some e
    ∧ AnalysisEntry.analysis e = "R"
    ∧ AnalysisEntry.promptId e = "b"
    ∧ AnalysisEntry.promptSnapshot e = "Translate to French"
    ∧ AnalysisEntry.promptSnapshot e ≠ "Summarize X".
Proof.
  eexists _, _, _, _, _.
  split; [vm_compute; reflexivity|].
  split; [reflexivity|]. split; [reflexivity|].
  split; [vm_compute; reflexivity|].
  split; [vm_compute; reflexivity|].
  repeat split; try reflexivity. discriminate.
Qed.

(** ** Importing templates *)

(** A value that is not a list is refused: nothing is stored and the
    failure is reported. *)
Lemma handleImport_not_an_array (s : PromptManager.State) (env : Env) (w : World) :
  PromptManager.handleImport PromptManager.NotAnArray s env w
  = (Returned s, logAlert "Failed to import. Please check the file format." w).
Proof. reflexivity. Qed.

Lemma handleImport_parse_failure (e : Exn) (s : PromptManager.State) (env : Env) (w : World) :
  PromptManager.handleImport (PromptManager.ParseFailure e) s env w
  = (Returned s, logAlert "Failed to import. Please check the file format." w).
Proof. reflexivity. Qed.




(** The file [[{"title":"A","content":"B"}]]: one template is stored, under
    a generated identifier, and the success is reported. *)
Lemma handleImport_one_object (s : PromptManager.State) (env : Env) (w : World) :
  dbService_db w = true →
  ∃ s' w',
    PromptManager.handleImport Demo.fileAB s env w = (Returned s', w')
    ∧ store_prompts (indexedDB w')
      = <[randomUUID env (uuidsDrawn w) :=
            SavedPrompt.mk (randomUUID env (uuidsDrawn w)) "A" "B" None]>
          (store_prompts (indexedDB w))
    ∧ alerts w' = (alerts w ++ ["Successfully imported 1 prompts."])%list
    ∧ PromptManager.prompts s' = DBService.getAll (store_prompts (indexedDB w')).
Proof.
  intros Hinit.
  unfold PromptManager.handleImport, Demo.fileAB, Demo.itemAB, PromptManager.importLoop,
    PromptManager.importOne, PromptManager.validates, PromptManager.id_or_randomUUID,
    PromptManager.loadPrompts, DBService.savePrompt, DBService.getAllPrompts,
    DBService.getStore, DBService.putStore.
  io_unfold. simpl. repeat (rewrite Hinit; simpl).
  eexists _, _. split; [reflexivity|]. repeat split; reflexivity.
Qed.

(** C6.  A file whose list has a [null] between two objects that validate:
    the first object is stored, reading the title of [null] throws, the
    failure is reported and the loop is left, so the object after the
    [null] is not stored although it validates. *)
Theorem C6_null_item_aborts_import :
  ∃ s' w',
    PromptManager.handleImport Demo.fileWithNull PromptManager.initial
      (Demo.env Demo.silent) (Demo.world Demo.emptyDB) = (Returned s', w')
    ∧ importable Demo.itemCD = true
    ∧ (map_to_list (store_prompts (indexedDB w'))).*2
      = [SavedPrompt.mk "uuid-0" "A" "B" None]
    ∧ alerts w' = ["Failed to import. Please check the file format."].
Proof.
  eexists _, _. split; [vm_compute; reflexivity|].
  split; [reflexivity|]. split; vm_compute; reflexivity.
Qed.

(** A template imported without [createdAt] gets the time of its first
    edit as creation timestamp. *)
Example edit_after_import_sets_createdAt :
  ∃ s1 w1 s2 w2,
    PromptManager.handleImport Demo.fileAB PromptManager.initial
      (Demo.env Demo.silent) (Demo.world Demo.emptyDB) = (Returned s1, w1)
    ∧ PromptManager.prompts s1 = [SavedPrompt.mk "uuid-0" "A" "B" None]
    ∧ PromptManager.handleSave
        (PromptManager.changeContent "B revised"
           (PromptManager.handleEdit (Some (SavedPrompt.mk "uuid-0" "A" "B" None)) s1))
        (Demo.env Demo.silent) w1 = (Returned s2, w2)
    ∧ PromptManager.prompts s2
      = [SavedPrompt.mk "uuid-0" "A" "B revised" (Some 1700000000000)].
Proof.
  eexists _, _, _, _.
  split; [vm_compute; reflexivity|]. split; [reflexivity|].
  split; vm_compute; reflexivity.
Qed.

(** * Further properties of the code *)

(** ** The store before [init], deletions, and the order of the listing *)

(** X1.  Before [init] has set [this.db], each of the six operations of the
    store throws "DB not initialized" and leaves the database, and the rest
    of the world, as they were. *)
Theorem store_operations_throw_before_init
    (env : Env) (w : World) (p : SavedPrompt) (e : AnalysisEntry) (i : string) :
  dbService_db w = false →
  DBService.getAllPrompts env w = (Thrown (Error "DB not initialized"), w)
  ∧ DBService.savePrompt p env w = (Thrown (Error "DB not initialized"), w)
  ∧ DBService.deletePrompt i env w = (Thrown (Error "DB not initialized"), w)
  ∧ DBService.getAllEntries env w = (Thrown (Error "DB not initialized"), w)
  ∧ DBService.saveEntry e env w = (Thrown (Error "DB not initialized"), w)
  ∧ DBService.deleteEntry i env w = (Thrown (Error "DB not initialized"), w).
Proof.
  intros Hclosed.
  unfold DBService.getAllPrompts, DBService.savePrompt, DBService.deletePrompt,
    DBService.getAllEntries, DBService.saveEntry, DBService.deleteEntry, bind.
  rewrite (getStore_not_initialized env w Hclosed). repeat split.
Qed.

Lemma store_operations_throw_before_init_witness :
  DBService.getAllPrompts (Demo.env Demo.silent) (Demo.closed Demo.twoPrompts)
  = (Thrown (Error "DB not initialized"), Demo.closed Demo.twoPrompts)
  ∧ DBService.saveEntry Demo.entryA (Demo.env Demo.silent) (Demo.closed Demo.twoPrompts)
    = (Thrown (Error "DB not initialized"), Demo.closed Demo.twoPrompts).
Proof.
  destruct (store_operations_throw_before_init (Demo.env Demo.silent)
              (Demo.closed Demo.twoPrompts) Demo.summarize Demo.entryA "a" eq_refl)
    as (H1 & _ & _ & _ & H5 & _).
  split; [exact H1 | exact H5].
Defined.

Lemma set_indexedDB_same (w : World) : set_indexedDB (indexedDB w) w = w.
Proof. by destruct w. Qed.

(** X2.  Deleting an identifier that is not stored succeeds and changes
    nothing, for templates and for entries. *)
Theorem delete_absent_changes_nothing (env : Env) (w : World) (i : string) :
  dbService_db w = true →
  (store_prompts (indexedDB w) !! i = None →
   DBService.deletePrompt i env w = (Returned tt, w))
  ∧ (store_entries (indexedDB w) !! i = None →
     DBService.deleteEntry i env w = (Returned tt, w)).
Proof.
  intros Hinit. split; intros Hnone.
  - rewrite deletePrompt_eq by done. rewrite delete_id by done.
    destruct w as [[ps es] ? ? ? ? ? ?]. reflexivity.
  - unfold DBService.deleteEntry, bind. rewrite getStore_eq by done.
    unfold DBService.putStore. io_unfold. rewrite delete_id by done.
    destruct w as [[ps es] ? ? ? ? ? ?]. reflexivity.
Qed.

Lemma delete_absent_changes_nothing_witness :
  DBService.deletePrompt "zz" (Demo.env Demo.silent) (Demo.world Demo.twoPrompts)
  = (Returned tt, Demo.world Demo.twoPrompts)
  ∧ DBService.deleteEntry "zz" (Demo.env Demo.silent) (Demo.world Demo.threeEntries)
    = (Returned tt, Demo.world Demo.threeEntries).
Proof.
  split.
  - apply (delete_absent_changes_nothing (Demo.env Demo.silent)
             (Demo.world Demo.twoPrompts) "zz" eq_refl). reflexivity.
  - apply (delete_absent_changes_nothing (Demo.env Demo.silent)
             (Demo.world Demo.threeEntries) "zz" eq_refl). reflexivity.
Defined.

(** X3.  Saving a template under a new identifier and deleting that identifier
    gives back the database as it was; the same for an entry. *)
Theorem save_then_delete_restores (env : Env) (w : World) (p : SavedPrompt) (e : AnalysisEntry) :
  dbService_db w = true →
  (store_prompts (indexedDB w) !! SavedPrompt.id p = None →
   (DBService.savePrompt p ;;; DBService.deletePrompt (SavedPrompt.id p)) env w
   = (Returned tt, w))
  ∧ (store_entries (indexedDB w) !! AnalysisEntry.id e = None →
     (DBService.saveEntry e ;;; DBService.deleteEntry (AnalysisEntry.id e)) env w
     = (Returned tt, w)).
Proof.
  intros Hinit. split; intros Hnone.
  - unfold DBService.savePrompt, DBService.deletePrompt, DBService.getStore,
      DBService.putStore. io_unfold. repeat (rewrite Hinit; simpl).
    rewrite delete_insert_id by done.
    destruct w as [[ps es] ? ? ? ? ? ?]. reflexivity.
  - unfold DBService.saveEntry, DBService.deleteEntry, DBService.getStore,
      DBService.putStore. io_unfold. repeat (rewrite Hinit; simpl).
    rewrite delete_insert_id by done.
    destruct w as [[ps es] ? ? ? ? ? ?]. reflexivity.
Qed.

Lemma save_then_delete_restores_witness :
  (DBService.saveEntry Demo.entryA ;;; DBService.deleteEntry "a1")
    (Demo.env Demo.silent) (Demo.world Demo.twoPrompts)
  = (Returned tt, Demo.world Demo.twoPrompts).
Proof.
  apply (save_then_delete_restores (Demo.env Demo.silent) (Demo.world Demo.twoPrompts)
           Demo.summarize Demo.entryA eq_refl).
  reflexivity.
Defined.

Lemma elem_of_values {A} (m : gmap string A) (x : A) :
  x ∈ (map_to_list m).*2 ↔ ∃ k, m !! k = Some x.
Proof.
  rewrite list_elem_of_fmap. split.
  - intros ([k y] & -> & Hin). exists k. by apply elem_of_map_to_list.
  - intros (k & Hk). exists (k, x). split; [done|]. by apply elem_of_map_to_list.
Qed.

Lemma values_delete {A} (m : gmap string A) (i : string) (x : A) :
  m !! i = Some x → (map_to_list m).*2 ≡ₚ x :: (map_to_list (delete i m)).*2.
Proof. intros Hx. by rewrite <- (map_to_list_delete m i x Hx). Qed.

Lemma values_insert {A} (m : gmap string A) (i : string) (x : A) :
  (map_to_list (<[i := x]> m)).*2 ≡ₚ x :: (map_to_list (delete i m)).*2.
Proof.
  rewrite <- (insert_delete_eq m).
  by rewrite map_to_list_insert by apply lookup_delete_eq.
Qed.

Lemma filter_all {A} (P : A → Prop) `{!∀ x, Decision (P x)} (l : list A) :
  (∀ x, x ∈ l → P x) → filter P l = l.
Proof.
  induction l as [|x l IH]; intros Hl; [done|].
  rewrite filter_cons_True by (apply Hl; left).
  f_equal. apply IH. intros y Hy. apply Hl. by right.
Qed.

Lemma StronglySorted_filter {A} (R : relation A) (P : A → Prop)
    `{!∀ x, Decision (P x)} (l : list A) :
  StronglySorted R l → StronglySorted R (filter P l).
Proof.
  induction 1 as [|x l _ IH Hall]; [constructor|].
  rewrite filter_cons. case_decide; [|done].
  constructor; [done|].
  apply Forall_forall. intros y [_ Hy]%list_elem_of_filter.
  rewrite Forall_forall in Hall. auto.
Qed.

(** Two stored entries that the index does not tell apart are the same
    entry. *)
Lemma index_le_antisym_stored (m : gmap string AnalysisEntry) (a b : AnalysisEntry) :
  keyedEntries m →
  a ∈ (map_to_list m).*2 → b ∈ (map_to_list m).*2 →
  DBService.index_le a b → DBService.index_le b a → a = b.
Proof.
  intros Hkeyed [ka Ha]%elem_of_values [kb Hb]%elem_of_values Hab Hba.
  assert (AnalysisEntry.id a = AnalysisEntry.id b) as Hid.
  { destruct Hab as [?|[E1 L1]], Hba as [?|[E2 L2]]; try lia.
    by apply (anti_symm String.le). }
  pose proof (Hkeyed _ _ Ha) as Hka. pose proof (Hkeyed _ _ Hb) as Hkb.
  simpl in Hka, Hkb. congruence.
Qed.

Lemma values_delete_filter (m : gmap string AnalysisEntry) (i : string) :
  keyedEntries m →
  (map_to_list (delete i m)).*2
  ≡ₚ filter (fun e => AnalysisEntry.id e ≠ i) (map_to_list m).*2.
Proof.
  intros Hkeyed.
  assert (∀ x, x ∈ (map_to_list (delete i m)).*2 → AnalysisEntry.id x ≠ i) as Hrest.
  { intros x [k Hk]%elem_of_values. apply lookup_delete_Some in Hk as [Hne Hk].
    apply Hkeyed in Hk. simpl in Hk. congruence. }
  destruct (m !! i) as [x|] eqn:Hi.
  - rewrite (values_delete m i x Hi).
    rewrite filter_cons_False by (apply Hkeyed in Hi; simpl in Hi; auto).
    by rewrite filter_all.
  - rewrite delete_id in * by done. by rewrite filter_all.
Qed.

Lemma index_getAll_delete (m : gmap string AnalysisEntry) (i : string) :
  keyedEntries m →
  reverse (DBService.index_getAll (delete i m))
  = filter (fun e => AnalysisEntry.id e ≠ i) (reverse (DBService.index_getAll m)).
Proof.
  intros Hkeyed.
  apply (StronglySorted_unique_strong (flip DBService.index_le)).
  - intros a b Ha Hb Hab Hba. unfold flip in *.
    apply (index_le_antisym_stored m a b Hkeyed); [| |done..].
    + rewrite index_getAll_Permutation in Ha.
      apply elem_of_values in Ha as [k [_ Hk]%lookup_delete_Some].
      apply elem_of_values. eauto.
    + apply list_elem_of_filter in Hb as [_ Hb].
      by rewrite index_getAll_Permutation in Hb.
  - apply index_getAll_descending.
  - apply StronglySorted_filter, index_getAll_descending.
  - rewrite !index_getAll_Permutation. by apply values_delete_filter.
Qed.

(** X4.  Deleting an entry takes exactly the entries with this identifier out of
    the listing; the others stay, in the order they had. *)
Theorem deleteEntry_removes_from_listing (env : Env) (w : World) (i : string) :
  dbService_db w = true →
  keyedEntries (store_entries (indexedDB w)) →
  ∃ l w',
    DBService.getAllEntries env w = (Returned l, w)
    ∧ (DBService.deleteEntry i ;;; DBService.getAllEntries) env w
      = (Returned (filter (fun e => AnalysisEntry.id e ≠ i) l), w')
    ∧ store_prompts (indexedDB w') = store_prompts (indexedDB w).
Proof.
  intros Hinit Hkeyed.
  set (m := store_entries (indexedDB w)) in *.
  exists (reverse (DBService.index_getAll m)),
         (set_indexedDB (mkIDB (store_prompts (indexedDB w)) (delete i m)) w).
  split; [by apply getAllEntries_eq|].
  split; [|reflexivity].
  unfold DBService.deleteEntry, DBService.getAllEntries, DBService.getStore,
    DBService.putStore. io_unfold. repeat (rewrite Hinit; simpl).
  fold m. f_equal. f_equal. by apply index_getAll_delete.
Qed.

Lemma deleteEntry_removes_from_listing_witness :
  ∃ l w',
    DBService.getAllEntries (Demo.env Demo.silent) (Demo.world Demo.threeEntries)
    = (Returned l, Demo.world Demo.threeEntries)
    ∧ (DBService.deleteEntry "b2" ;;; DBService.getAllEntries)
        (Demo.env Demo.silent) (Demo.world Demo.threeEntries)
      = (Returned (filter (fun e => AnalysisEntry.id e ≠ "b2") l), w').
Proof.
  destruct (deleteEntry_removes_from_listing (Demo.env Demo.silent)
              (Demo.world Demo.threeEntries) "b2" eq_refl) as (l & w' & H1 & H2 & _).
  - repeat (apply map_Forall_insert_2; [reflexivity|]). apply map_Forall_empty.
  - exists l, w'. split; [exact H1 | exact H2].
Defined.

(** The listing after a put: the head of the list when the saved entry is
    newer than every entry stored under another identifier. *)
Lemma listing_head_of_newest (m : gmap string AnalysisEntry) (e : AnalysisEntry) :
  (∀ k q, m !! k = Some q → k ≠ AnalysisEntry.id e →
          AnalysisEntry.timestamp q < AnalysisEntry.timestamp e) →
  ∃ rest,
    reverse (DBService.index_getAll (<[AnalysisEntry.id e := e]> m)) = e :: rest
    ∧ rest ≡ₚ (map_to_list (delete (AnalysisEntry.id e) m)).*2.
Proof.
  intros Holder.
  pose proof (index_getAll_Permutation (<[AnalysisEntry.id e := e]> m)) as Hperm.
  rewrite values_insert in Hperm.
  pose proof (index_getAll_descending (<[AnalysisEntry.id e := e]> m)) as Hsorted.
  destruct (reverse (DBService.index_getAll (<[AnalysisEntry.id e := e]> m)))
    as [|h t].
  { by apply Permutation_nil_cons in Hperm. }
  destruct (decide (h = e)) as [->|Hne].
  { exists t. split; [done|]. by apply (inj (e ::.)). }
  exfalso.
  assert (e ∈ h :: t) as He by (rewrite Hperm; left).
  assert (h ∈ e :: (map_to_list (delete (AnalysisEntry.id e) m)).*2) as Hh
    by (rewrite <- Hperm; left).
  apply elem_of_cons in He as [?|He]; [congruence|].
  apply elem_of_cons in Hh as [?|Hh]; [congruence|].
  apply elem_of_values in Hh as [k [Hk Hm]%lookup_delete_Some].
  pose proof (Holder k h Hm (not_eq_sym Hk)) as Hlt.
  apply StronglySorted_inv in Hsorted as [_ Hall].
  rewrite Forall_forall in Hall. specialize (Hall e He).
  unfold flip, DBService.index_le in Hall. lia.
Qed.

(** X5.  An entry saved with a timestamp above those of the other stored
    entries comes first in the listing, followed by the entries that were
    stored under other identifiers. *)
Theorem saved_newest_entry_listed_first (env : Env) (w : World) (e : AnalysisEntry) :
  dbService_db w = true →
  (∀ k q, store_entries (indexedDB w) !! k = Some q → k ≠ AnalysisEntry.id e →
          AnalysisEntry.timestamp q < AnalysisEntry.timestamp e) →
  ∃ rest w',
    (DBService.saveEntry e ;;; DBService.getAllEntries) env w = (Returned (e :: rest), w')
    ∧ rest ≡ₚ (map_to_list (delete (AnalysisEntry.id e) (store_entries (indexedDB w)))).*2.
Proof.
  intros Hinit Holder.
  destruct (listing_head_of_newest _ e Holder) as (rest & Hlist & Hrest).
  exists rest. eexists. split; [|exact Hrest].
  unfold DBService.saveEntry, DBService.getAllEntries, DBService.getStore,
    DBService.putStore. io_unfold. repeat (rewrite Hinit; simpl).
  by rewrite Hlist.
Qed.

Lemma saved_newest_entry_listed_first_witness :
  ∃ rest w',
    (DBService.saveEntry
       (AnalysisEntry.mk "d4" "Fourth" "text four" "analysis four" "a" "Summarize X"
                         1700000001000) ;;;
     DBService.getAllEntries) (Demo.env Demo.silent) (Demo.world Demo.threeEntries)
    = (Returned
         (AnalysisEntry.mk "d4" "Fourth" "text four" "analysis four" "a" "Summarize X"
                           1700000001000 :: rest), w').
Proof.
  destruct (saved_newest_entry_listed_first (Demo.env Demo.silent)
              (Demo.world Demo.threeEntries)
              (AnalysisEntry.mk "d4" "Fourth" "text four" "analysis four" "a" "Summarize X"
                                1700000001000) eq_refl) as (rest & w' & H & _).
  - intros k q Hq _. simpl in Hq.
    apply lookup_insert_Some in Hq as [[_ <-]|[_ Hq]]; [reflexivity|].
    apply lookup_insert_Some in Hq as [[_ <-]|[_ Hq]]; [reflexivity|].
    apply lookup_insert_Some in Hq as [[_ <-]|[_ Hq]]; [reflexivity|].
    by rewrite lookup_empty in Hq.
  - exists rest, w'. exact H.
Defined.

(** ** The analyzer *)

Lemma findPrompt_Some (s : Analyzer.State) (p : SavedPrompt) :
  Analyzer.findPrompt s = Some p →
  p ∈ Analyzer.prompts s ∧ SavedPrompt.id p = Analyzer.selectedPromptId s.
Proof.
  unfold Analyzer.findPrompt. intros [Hin Heq]%find_some.
  split; [by apply list_elem_of_In | by apply String.eqb_eq].
Qed.

(** X6.  A run of the analysis never throws, never writes to the database and
    shows no alert.  It sends no request at all, or exactly one: then the
    instruction is the content of a loaded template whose identifier is the
    selected one, the flag [isAnalyzing] is down again, and either a result
    is set and no error, or the failure message and no result. *)
Theorem handleRunAnalysis_effects (s : Analyzer.State) (env : Env) (w : World) :
  ∃ s' w',
    Analyzer.handleRunAnalysis s env w = (Returned s', w')
    ∧ indexedDB w' = indexedDB w
    ∧ alerts w' = alerts w
    ∧ Analyzer.prompts s' = Analyzer.prompts s
    ∧ Analyzer.selectedPromptId s' = Analyzer.selectedPromptId s
    ∧ Analyzer.inputText s' = Analyzer.inputText s
    ∧ ((requests w' = requests w ∧ Analyzer.result s' = Analyzer.result s)
       ∨ ∃ p,
           p ∈ Analyzer.prompts s
           ∧ SavedPrompt.id p = Analyzer.selectedPromptId s
           ∧ requests w'
             = (requests w
                ++ [GeminiService.analyzeParams (Analyzer.inputText s)
                      (SavedPrompt.content p)])%list
           ∧ Analyzer.isAnalyzing s' = false
           ∧ ((∃ r, Analyzer.result s' = Some r ∧ r ≠ EmptyString)
                ∧ Analyzer.error s' = None
              ∨ Analyzer.result s' = None
                ∧ Analyzer.error s'
                  = Some "Failed to generate analysis. Please check your connection and API key.")).
Proof.
  destruct (whitespaceOnly (Analyzer.inputText s)) eqn:Hin.
  { apply trim_empty_iff in Hin. unfold Analyzer.handleRunAnalysis. rewrite Hin. simpl.
    eexists _, _. split; [reflexivity|]. simpl. repeat split; auto. }
  destruct (JS.truthy (Analyzer.selectedPromptId s)) eqn:Hsel.
  2:{ unfold Analyzer.handleRunAnalysis.
      assert (JS.truthy (JS.trim (Analyzer.inputText s)) = true) as ->.
      { apply truthy_true_iff. intros E%trim_empty_iff. congruence. }
      rewrite Hsel. simpl. eexists _, _. split; [reflexivity|]. simpl. repeat split; auto. }
  apply truthy_true_iff in Hsel.
  destruct (Analyzer.findPrompt s) as [p|] eqn:Hfind.
  2:{ unfold Analyzer.handleRunAnalysis.
      assert (JS.truthy (JS.trim (Analyzer.inputText s)) = true) as ->.
      { apply truthy_true_iff. intros E%trim_empty_iff. congruence. }
      apply truthy_true_iff in Hsel. rewrite Hsel, Hfind. simpl.
      eexists _, _. split; [reflexivity|]. repeat split; auto. }
  rewrite (handleRunAnalysis_calls_once s p env w Hin Hsel Hfind).
  destruct (findPrompt_Some s p Hfind) as [Hmem Hid].
  eexists _, _. split; [reflexivity|].
  destruct (generateContent env _) as [e|r]; simpl;
    (do 5 (split; [reflexivity|])); right; exists p;
    (do 3 (split; [done|])); (split; [reflexivity|]).
  - right. done.
  - left. split; [|reflexivity]. eexists. split; [reflexivity|].
    apply truthy_true_iff. by apply opt_or_else_truthy.
Qed.

#[local] Instance key_le_total {V} : Total (@DBService.key_le V).
Proof. intros a b. unfold DBService.key_le. apply (total String.le). Qed.

#[local] Instance key_le_trans {V} : Transitive (@DBService.key_le V).
Proof. intros a b c. unfold DBService.key_le. apply transitivity. Qed.

(** On a store with key path [id], [getAll] is ascending in the
    identifiers. *)
Lemma getAll_sorted_by_id (m : gmap string SavedPrompt) :
  keyedPrompts m →
  StronglySorted (fun a b => String.le (SavedPrompt.id a) (SavedPrompt.id b))
                 (DBService.getAll m).
Proof.
  intros Hkeyed. unfold DBService.getAll.
  assert (∀ kp, kp ∈ merge_sort DBService.key_le (map_to_list m) →
                SavedPrompt.id kp.2 = kp.1) as Hin.
  { intros [k q]. rewrite merge_sort_Permutation. intros Hkq%elem_of_map_to_list.
    by apply Hkeyed in Hkq. }
  pose proof (StronglySorted_merge_sort DBService.key_le (map_to_list m)) as Hsorted.
  induction Hsorted as [|kp l _ IH Hall]; [constructor|].
  rewrite fmap_cons. constructor.
  - apply IH. intros kq Hkq. apply Hin. by right.
  - apply Forall_fmap, Forall_forall. intros kq Hkq. simpl.
    rewrite (Hin kp) by left. rewrite (Hin kq) by (by right).
    rewrite Forall_forall in Hall. by apply Hall.
Qed.

(** X7.  Loading the templates into the analyzer.  When the store cannot be
    read the error is swallowed and the state stays.  Otherwise the loaded
    list holds the stored templates, each once, in ascending order of their
    identifiers; input text and result are kept.  An empty store leaves the
    selection as it was; otherwise the first template, the one with the
    least identifier, is selected, and looking the selection up gives that
    template. *)
Theorem Analyzer_loadPrompts_selects_first (s : Analyzer.State) (env : Env) (w : World) :
  (dbService_db w = false → Analyzer.loadPrompts s env w = (Returned s, w))
  ∧ (dbService_db w = true →
     keyedPrompts (store_prompts (indexedDB w)) →
     ∃ s',
       Analyzer.loadPrompts s env w = (Returned s', w)
       ∧ Analyzer.prompts s' ≡ₚ (map_to_list (store_prompts (indexedDB w))).*2
       ∧ StronglySorted (fun a b => String.le (SavedPrompt.id a) (SavedPrompt.id b))
                        (Analyzer.prompts s')
       ∧ Analyzer.inputText s' = Analyzer.inputText s
       ∧ Analyzer.result s' = Analyzer.result s
       ∧ match Analyzer.prompts s' with
         | [] =>
             store_prompts (indexedDB w) = ∅
             ∧ Analyzer.selectedPromptId s' = Analyzer.selectedPromptId s
         | p :: _ =>
             Analyzer.selectedPromptId s' = SavedPrompt.id p
             ∧ Analyzer.findPrompt s' = Some p
             ∧ store_prompts (indexedDB w) !! SavedPrompt.id p = Some p
             ∧ ∀ k q, store_prompts (indexedDB w) !! k = Some q →
                      String.le (SavedPrompt.id p) k
         end).
Proof.
  split.
  - intros Hdb. unfold Analyzer.loadPrompts, DBService.getAllPrompts.
    unfold try_catch, bind. by rewrite (getStore_not_initialized env w Hdb).
  - intros Hdb Hkeyed. unfold Analyzer.loadPrompts. unfold try_catch, bind.
    rewrite (getAllPrompts_eq env w Hdb). unfold ret.
    pose proof (getAll_Permutation (store_prompts (indexedDB w))) as Hperm.
    pose proof (getAll_sorted_by_id _ Hkeyed) as Hsorted.
    pose proof (elem_of_getAll (store_prompts (indexedDB w))) as Hmem.
    pose proof (getAll_nil_iff (store_prompts (indexedDB w))) as Hnil.
    destruct (DBService.getAll (store_prompts (indexedDB w))) as [|p rest].
    + eexists. split; [reflexivity|]. simpl. repeat split; try done. by apply Hnil.
    + eexists. split; [reflexivity|]. simpl.
      split; [done|]. split; [done|]. split; [done|]. split; [done|].
      split; [done|].
      split; [unfold Analyzer.findPrompt; simpl; by rewrite String.eqb_refl|].
      assert (∃ k, store_prompts (indexedDB w) !! k = Some p) as [kp Hkp]
        by (apply Hmem; left).
      pose proof (Hkeyed _ _ Hkp) as Hid. simpl in Hid.
      split; [by rewrite Hid|].
      intros k q Hq.
      assert (q ∈ p :: rest) as Hin by (apply Hmem; eauto).
      pose proof (Hkeyed _ _ Hq) as Hidq. simpl in Hidq. rewrite <- Hidq.
      apply elem_of_cons in Hin as [->|Hin]; [done|].
      apply StronglySorted_inv in Hsorted as [_ Hall].
      rewrite Forall_forall in Hall. by apply Hall.
Qed.

Lemma Analyzer_loadPrompts_selects_first_witness :
  Analyzer.loadPrompts Analyzer.initial (Demo.env Demo.silent) (Demo.closed Demo.twoPrompts)
  = (Returned Analyzer.initial, Demo.closed Demo.twoPrompts)
  ∧ ∃ s',
      Analyzer.loadPrompts Analyzer.initial (Demo.env Demo.silent)
        (Demo.world Demo.twoPrompts) = (Returned s', Demo.world Demo.twoPrompts)
      ∧ Analyzer.prompts s' ≡ₚ (map_to_list (store_prompts Demo.twoPrompts)).*2
      ∧ StronglySorted (fun a b => String.le (SavedPrompt.id a) (SavedPrompt.id b))
                       (Analyzer.prompts s').
Proof.
  destruct (Analyzer_loadPrompts_selects_first Analyzer.initial (Demo.env Demo.silent)
              (Demo.closed Demo.twoPrompts)) as [H1 _].
  destruct (Analyzer_loadPrompts_selects_first Analyzer.initial (Demo.env Demo.silent)
              (Demo.world Demo.twoPrompts)) as [_ H2].
  split; [exact (H1 eq_refl)|].
  destruct (H2 eq_refl) as (s' & Hrun & Hlist & Hsorted & _).
  - repeat (apply map_Forall_insert_2; [reflexivity|]). apply map_Forall_empty.
  - exists s'. split; [exact Hrun|]. split; [exact Hlist | exact Hsorted].
Defined.

(** The analyzer of the example loads the two templates in key order and
    selects "a". *)
Example Analyzer_loadPrompts_twoPrompts :
  Analyzer.loadPrompts Analyzer.initial (Demo.env Demo.silent) (Demo.world Demo.twoPrompts)
  = (Returned (Analyzer.setSelectedPromptId "a"
                 (Analyzer.setPrompts [Demo.summarize; Demo.translate] Analyzer.initial)),
     Demo.world Demo.twoPrompts).
Proof. vm_compute. reflexivity. Qed.

Lemma Analyzer_handleSave_writes
    (env : Env) (w : World) (s : Analyzer.State) (r : string) (p : SavedPrompt) :
  dbService_db w = true →
  Analyzer.result s = Some r → r ≠ EmptyString →
  Analyzer.selectedPromptId s ≠ EmptyString →
  Analyzer.findPrompt s = Some p →
  ∃ w',
    Analyzer.handleSave App_onSaveComplete s env w
    = (Returned (Analyzer.setTitle EmptyString
                   (Analyzer.setResult None (Analyzer.setInputText EmptyString s))), w')
    ∧ indexedDB w'
      = mkIDB (store_prompts (indexedDB w))
              (<[AnalysisEntry.id (savedEntry env w s r p) := savedEntry env w s r p]>
                 (store_entries (indexedDB w)))
    ∧ dbService_db w' = true
    ∧ view w' = DATABASE
    ∧ requests w' = requests w.
Proof.
  intros Hinit Hres Hr Hsel Hfind.
  apply truthy_true_iff in Hr, Hsel.
  unfold Analyzer.handleSave, savedEntry. rewrite Hres, Hr, Hsel, Hfind. simpl.
  unfold App_onSaveComplete, DBService.saveEntry, DBService.getStore, DBService.putStore.
  destruct (JS.truthy (Analyzer.title s));
    io_unfold; simpl; repeat (rewrite Hinit; simpl);
    (eexists; split; [reflexivity|]; repeat split; try reflexivity; exact Hinit).
Qed.

(** X8.  Saving from the analyzer never calls the model, never changes a
    template and shows no alert, whatever the outcome; with no result to
    save (none, or an empty one) it does nothing at all. *)
Theorem Analyzer_handleSave_frame
    (s : Analyzer.State) (env : Env) (w w' : World) (o : Outcome Analyzer.State) :
  Analyzer.handleSave App_onSaveComplete s env w = (o, w') →
  requests w' = requests w
  ∧ alerts w' = alerts w
  ∧ store_prompts (indexedDB w') = store_prompts (indexedDB w)
  ∧ (JS.truthy_opt (Analyzer.result s) = false → o = Returned s ∧ w' = w).
Proof.
  unfold Analyzer.handleSave.
  destruct (Analyzer.result s) as [r|]; simpl.
  2:{ unfold ret. intros [= <- <-]. auto. }
  destruct (JS.truthy r); simpl.
  2:{ unfold ret. intros [= <- <-]. auto. }
  destruct (JS.truthy (Analyzer.selectedPromptId s)); simpl.
  2:{ unfold ret. intros [= <- <-]. repeat split; discriminate. }
  destruct (Analyzer.findPrompt s) as [p|].
  2:{ unfold ret. intros [= <- <-]. repeat split; discriminate. }
  unfold App_onSaveComplete, DBService.saveEntry, DBService.getStore, DBService.putStore.
  destruct (JS.truthy (Analyzer.title s)); io_unfold; simpl;
    destruct (dbService_db w); simpl; intros [= <- <-]; simpl;
    repeat split; discriminate.
Qed.

Lemma Analyzer_handleSave_frame_witness :
  ∃ o w',
    Analyzer.handleSave App_onSaveComplete (Analyzer.setResult (Some "R") Demo.analyzer)
      (Demo.env Demo.silent) (Demo.world Demo.twoPrompts) = (o, w')
    ∧ requests w' = []
    ∧ store_prompts (indexedDB w') = store_prompts Demo.twoPrompts.
Proof.
  destruct (Analyzer.handleSave App_onSaveComplete
              (Analyzer.setResult (Some "R") Demo.analyzer)
              (Demo.env Demo.silent) (Demo.world Demo.twoPrompts)) as [o w'] eqn:E.
  exists o, w'. split; [reflexivity|].
  destruct (Analyzer_handleSave_frame _ _ _ _ _ E) as (H1 & _ & H3 & _).
  split; [exact H1 | exact H3].
Defined.

(** X9.  From "Save to Database" to the knowledge base: with a result to
    save, a selected template and a timestamp (the clock as [handleSave]
    reads it for the entry) later than the timestamp of every stored entry,
    the entry is written, the form is cleared, the view switches to the
    knowledge base, and the list loaded there starts with the new entry,
    followed by the entries stored before (but for one of the same
    identifier, which is overwritten). *)
Theorem saved_analysis_heads_knowledge_base
    (env : Env) (w : World) (s : Analyzer.State) (r : string) (p : SavedPrompt)
    (kb : KnowledgeBase.State) :
  dbService_db w = true →
  Analyzer.result s = Some r → r ≠ EmptyString →
  Analyzer.selectedPromptId s ≠ EmptyString →
  Analyzer.findPrompt s = Some p →
  (∀ k q, store_entries (indexedDB w) !! k = Some q →
          AnalysisEntry.timestamp q < AnalysisEntry.timestamp (savedEntry env w s r p)) →
  ∃ s' w' rest,
    Analyzer.handleSave App_onSaveComplete s env w = (Returned s', w')
    ∧ view w' = DATABASE
    ∧ Analyzer.inputText s' = EmptyString
    ∧ Analyzer.title s' = EmptyString
    ∧ Analyzer.result s' = None
    ∧ KnowledgeBase.loadEntries kb env w'
      = (Returned (KnowledgeBase.setEntries (savedEntry env w s r p :: rest) kb), w')
    ∧ AnalysisEntry.analysis (savedEntry env w s r p) = r
    ∧ AnalysisEntry.originalText (savedEntry env w s r p) = Analyzer.inputText s
    ∧ rest ≡ₚ (map_to_list (delete (randomUUID env (uuidsDrawn w))
                                   (store_entries (indexedDB w)))).*2.
Proof.
  intros Hinit Hres Hr Hsel Hfind Hclock.
  destruct (Analyzer_handleSave_writes env w s r p Hinit Hres Hr Hsel Hfind)
    as (w' & Hsave & Hdb & Hinit' & Hview & _).
  destruct (listing_head_of_newest (store_entries (indexedDB w)) (savedEntry env w s r p))
    as (rest & Hlist & Hrest).
  { intros k q Hq _. by apply (Hclock k). }
  exists (Analyzer.setTitle EmptyString
            (Analyzer.setResult None (Analyzer.setInputText EmptyString s))), w', rest.
  split; [exact Hsave|]. split; [exact Hview|].
  do 3 (split; [reflexivity|]).
  split.
  { unfold KnowledgeBase.loadEntries, try_catch, bind.
    rewrite (getAllEntries_eq env w' Hinit'), Hdb. simpl. by rewrite Hlist. }
  split; [by unfold savedEntry; destruct (JS.truthy (Analyzer.title s))|].
  split; [by unfold savedEntry; destruct (JS.truthy (Analyzer.title s))|].
  assert (AnalysisEntry.id (savedEntry env w s r p) = randomUUID env (uuidsDrawn w)) as <-
    by (unfold savedEntry; by destruct (JS.truthy (Analyzer.title s))).
  exact Hrest.
Qed.

Lemma saved_analysis_heads_knowledge_base_witness :
  let s := Analyzer.setResult (Some "R") Demo.analyzer in
  ∃ s' w' rest,
    Analyzer.handleSave App_onSaveComplete s (Demo.env Demo.silent) Demo.midSession
    = (Returned s', w')
    ∧ view w' = DATABASE
    ∧ KnowledgeBase.loadEntries KnowledgeBase.initial (Demo.env Demo.silent) w'
      = (Returned
           (KnowledgeBase.setEntries
              (savedEntry (Demo.env Demo.silent) Demo.midSession s "R" Demo.summarize
               :: rest)
              KnowledgeBase.initial), w')
    ∧ rest ≡ₚ (map_to_list (delete "uuid-2" (store_entries (indexedDB Demo.midSession)))).*2.
Proof.
  intros s.
  destruct (saved_analysis_heads_knowledge_base (Demo.env Demo.silent)
              Demo.midSession s "R" Demo.summarize KnowledgeBase.initial)
    as (s' & w' & rest & H1 & H2 & _ & _ & _ & H6 & _ & _ & H9).
  - reflexivity.
  - reflexivity.
  - discriminate.
  - discriminate.
  - reflexivity.
  - change (map_Forall (fun (_ : string) q => AnalysisEntry.timestamp q < 1700000000003)
                       (store_entries (indexedDB Demo.midSession))).
    repeat (apply map_Forall_insert_2; [reflexivity|]). apply map_Forall_empty.
  - exists s', w', rest. split; [exact H1|]. split; [exact H2|].
    split; [exact H6 | exact H9].
Defined.

(** The list loaded after that save: the new entry, then the two entries
    saved earlier in the session, the later one first. *)
Example save_in_midSession :
  let s := Analyzer.setResult (Some "R") Demo.analyzer in
  let saved :=
    Analyzer.handleSave App_onSaveComplete s (Demo.env Demo.silent) Demo.midSession in
  (KnowledgeBase.loadEntries KnowledgeBase.initial (Demo.env Demo.silent) saved.2).1
  = Returned
      (KnowledgeBase.setEntries
         [savedEntry (Demo.env Demo.silent) Demo.midSession s "R" Demo.summarize;
          Demo.earlierB; Demo.earlierA]
         KnowledgeBase.initial).
Proof. vm_compute. reflexivity. Qed.


(** ** The knowledge base *)

(** X12.  Asking a question.  A blank question does nothing.  Any other question
    is answered without throwing: the conversation gains the question as
    typed and then one message of the model (the answer, the literal
    fallback, or the apology when the gateway fails), the input is cleared,
    exactly one request is sent, over all the loaded entries, and the
    database is not touched. *)
Theorem handleSmartSearch_appends_two_messages
    (s : KnowledgeBase.State) (env : Env) (w : World) :
  (whitespaceOnly (KnowledgeBase.chatQuery s) = true →
   KnowledgeBase.handleSmartSearch s env w = (Returned s, w))
  ∧ (whitespaceOnly (KnowledgeBase.chatQuery s) = false →
     ∃ s' w' answer,
       KnowledgeBase.handleSmartSearch s env w = (Returned s', w')
       ∧ KnowledgeBase.chatHistory s'
         = (KnowledgeBase.chatHistory s
            ++ [ChatMessage.mk Role.user (KnowledgeBase.chatQuery s)
                               (dateNow env (clockReads w));
                ChatMessage.mk Role.model answer (dateNow env (S (clockReads w)))])%list
       ∧ answer
         = match generateContent env
                   (GeminiService.searchParams env (KnowledgeBase.chatQuery s)
                                               (KnowledgeBase.entries s)) with
           | inl _ => "Sorry, I encountered an error searching your database."
           | inr r =>
               JS.opt_or_else (GenAI.text r) "I couldn't find an answer in your database."
           end
       ∧ KnowledgeBase.chatQuery s' = EmptyString
       ∧ KnowledgeBase.isChatting s' = false
       ∧ KnowledgeBase.entries s' = KnowledgeBase.entries s
       ∧ requests w'
         = (requests w
            ++ [GeminiService.searchParams env (KnowledgeBase.chatQuery s)
                                           (KnowledgeBase.entries s)])%list
       ∧ indexedDB w' = indexedDB w).
Proof.
  split; intros Hq; unfold KnowledgeBase.handleSmartSearch.
  - apply trim_empty_iff in Hq. by rewrite Hq.
  - assert (JS.truthy (JS.trim (KnowledgeBase.chatQuery s)) = true) as ->.
    { apply truthy_true_iff. intros E%trim_empty_iff. congruence. }
    simpl. io_unfold. rewrite searchDatabase_eq. simpl.
    destruct (generateContent env _) as [e|r]; simpl;
      (eexists _, _, _; split; [reflexivity|]; simpl;
       rewrite <- app_assoc; repeat split; reflexivity).
Qed.

Lemma handleSmartSearch_appends_two_messages_witness :
  ∃ s' w' answer,
    KnowledgeBase.handleSmartSearch
      (KnowledgeBase.setChatQuery "Who was interviewed?" Demo.knowledgeBase)
      (Demo.env Demo.fails) (Demo.world Demo.threeEntries) = (Returned s', w')
    ∧ KnowledgeBase.chatHistory s'
      = [ChatMessage.mk Role.user "Who was interviewed?" 1700000000000;
         ChatMessage.mk Role.model answer 1700000000001]
    ∧ answer = "Sorry, I encountered an error searching your database.".
Proof.
  destruct (handleSmartSearch_appends_two_messages
              (KnowledgeBase.setChatQuery "Who was interviewed?" Demo.knowledgeBase)
              (Demo.env Demo.fails) (Demo.world Demo.threeEntries)) as [_ H].
  destruct (H eq_refl) as (s' & w' & answer & H1 & H2 & H3 & _).
  exists s', w', answer. split; [exact H1|]. split; [exact H2 | exact H3].
Defined.

(** X13.  Deleting an entry from the knowledge base.  Without the user's
    confirmation nothing happens.  With it the entry leaves the store and
    the reloaded list is the old listing of the store without the entries
    of that identifier, in the same order; conversation and templates are
    kept. *)
Theorem KnowledgeBase_handleDelete_reloads
    (s : KnowledgeBase.State) (env : Env) (w : World) (i : string) :
  dbService_db w = true →
  keyedEntries (store_entries (indexedDB w)) →
  KnowledgeBase.handleDelete false i s env w = (Returned s, w)
  ∧ ∃ s' w',
      KnowledgeBase.handleDelete true i s env w = (Returned s', w')
      ∧ store_entries (indexedDB w') = delete i (store_entries (indexedDB w))
      ∧ store_prompts (indexedDB w') = store_prompts (indexedDB w)
      ∧ KnowledgeBase.entries s'
        = filter (fun e => AnalysisEntry.id e ≠ i)
                 (reverse (DBService.index_getAll (store_entries (indexedDB w))))
      ∧ (∀ e, e ∈ KnowledgeBase.entries s' → AnalysisEntry.id e ≠ i)
      ∧ KnowledgeBase.chatHistory s' = KnowledgeBase.chatHistory s.
Proof.
  intros Hinit Hkeyed. split; [reflexivity|].
  unfold KnowledgeBase.handleDelete, KnowledgeBase.loadEntries, DBService.deleteEntry,
    DBService.getAllEntries, DBService.getStore, DBService.putStore.
  io_unfold. repeat (rewrite Hinit; simpl).
  eexists _, _. split; [reflexivity|]. simpl.
  rewrite (index_getAll_delete _ i Hkeyed).
  repeat split. intros e [He _]%list_elem_of_filter. exact He.
Qed.

Lemma KnowledgeBase_handleDelete_reloads_witness :
  KnowledgeBase.handleDelete false "b2" Demo.knowledgeBase (Demo.env Demo.silent)
    (Demo.world Demo.threeEntries)
  = (Returned Demo.knowledgeBase, Demo.world Demo.threeEntries)
  ∧ ∃ s' w',
      KnowledgeBase.handleDelete true "b2" Demo.knowledgeBase (Demo.env Demo.silent)
        (Demo.world Demo.threeEntries) = (Returned s', w')
      ∧ ∀ e, e ∈ KnowledgeBase.entries s' → AnalysisEntry.id e ≠ "b2".
Proof.
  destruct (KnowledgeBase_handleDelete_reloads Demo.knowledgeBase (Demo.env Demo.silent)
              (Demo.world Demo.threeEntries) "b2" eq_refl)
    as (H1 & s' & w' & H2 & _ & _ & _ & H5 & _).
  - repeat (apply map_Forall_insert_2; [reflexivity|]). apply map_Forall_empty.
  - split; [exact H1|]. exists s', w'. split; [exact H2 | exact H5].
Defined.

(** *** The keyword filter *)











(** ** The template manager *)

Lemma PromptManager_loadPrompts_returns (s : PromptManager.State) (env : Env) (w : World) :
  ∃ s', PromptManager.loadPrompts s env w = (Returned s', w)
        ∧ PromptManager.isEditing s' = PromptManager.isEditing s
        ∧ PromptManager.currentPrompt s' = PromptManager.currentPrompt s
        ∧ (dbService_db w = true →
           PromptManager.prompts s' = DBService.getAll (store_prompts (indexedDB w))).
Proof.
  unfold PromptManager.loadPrompts, DBService.getAllPrompts, DBService.getStore.
  io_unfold. destruct (dbService_db w); simpl; eexists; split; try reflexivity; auto.
  repeat split. discriminate.
Qed.

(** X15.  Deleting a template from the manager.  Without the user's confirmation
    nothing happens.  With it the template leaves the store, the reloaded
    list holds the other templates and no template of that identifier, and
    the entries, also those made with the template, stay. *)
Theorem PromptManager_handleDelete_removes
    (s : PromptManager.State) (env : Env) (w : World) (i : string) :
  dbService_db w = true →
  keyedPrompts (store_prompts (indexedDB w)) →
  PromptManager.handleDelete false i s env w = (Returned s, w)
  ∧ ∃ s' w',
      PromptManager.handleDelete true i s env w = (Returned s', w')
      ∧ store_prompts (indexedDB w') = delete i (store_prompts (indexedDB w))
      ∧ store_entries (indexedDB w') = store_entries (indexedDB w)
      ∧ (∀ q, q ∈ PromptManager.prompts s'
              ↔ q ∈ (map_to_list (store_prompts (indexedDB w))).*2 ∧ SavedPrompt.id q ≠ i).
Proof.
  intros Hinit Hkeyed. split; [reflexivity|].
  unfold PromptManager.handleDelete, PromptManager.loadPrompts, DBService.deletePrompt,
    DBService.getAllPrompts, DBService.getStore, DBService.putStore.
  io_unfold. repeat (rewrite Hinit; simpl).
  eexists _, _. split; [reflexivity|]. simpl.
  split; [reflexivity|]. split; [reflexivity|]. intros q.
  rewrite elem_of_getAll, elem_of_values. split.
  - intros [k [Hne Hk]%lookup_delete_Some]. split; [eauto|].
    apply Hkeyed in Hk. simpl in Hk. congruence.
  - intros [[k Hk] Hne]. exists k.
    apply lookup_delete_Some. split; [|done].
    pose proof (Hkeyed _ _ Hk) as Hid. simpl in Hid. congruence.
Qed.

Lemma PromptManager_handleDelete_removes_witness :
  ∃ s' w',
    PromptManager.handleDelete true "a" PromptManager.initial (Demo.env Demo.silent)
      (Demo.world Demo.twoPrompts) = (Returned s', w')
    ∧ store_prompts (indexedDB w') = delete "a" (store_prompts Demo.twoPrompts)
    ∧ store_entries (indexedDB w') = store_entries Demo.twoPrompts.
Proof.
  destruct (PromptManager_handleDelete_removes PromptManager.initial (Demo.env Demo.silent)
              (Demo.world Demo.twoPrompts) "a" eq_refl)
    as (_ & s' & w' & H1 & H2 & H3 & _).
  - repeat (apply map_Forall_insert_2; [reflexivity|]). apply map_Forall_empty.
  - exists s', w'. split; [exact H1|]. split; [exact H2 | exact H3].
Defined.

(** The import loop writes to the template store only. *)
Lemma importOne_frame (n : nat) (p : PromptManager.ImportItem) (env : Env)
    (w w' : World) (o : Outcome nat) :
  PromptManager.importOne n p env w = (o, w') →
  store_entries (indexedDB w') = store_entries (indexedDB w)
  ∧ requests w' = requests w
  ∧ alerts w' = alerts w.
Proof.
  unfold PromptManager.importOne, PromptManager.validates,
    PromptManager.id_or_randomUUID, DBService.savePrompt, DBService.getStore,
    DBService.putStore.
  destruct p as [| |o'|t c]; io_unfold; simpl;
    [by intros [= _ <-] | by intros [= _ <-] | |].
  - destruct (JS.truthy_opt (PromptManager.p_title o')
              && JS.truthy_opt (PromptManager.p_content o'));
      [|by intros [= _ <-]].
    destruct (JS.truthy_opt (PromptManager.p_id o')); simpl;
      destruct (dbService_db w); simpl; by intros [= _ <-].
  - destruct (JS.truthy_opt t && JS.truthy_opt c); [|by intros [= _ <-]].
    destruct (dbService_db w); simpl; by intros [= _ <-].
Qed.

Lemma importLoop_frame (items : list PromptManager.ImportItem) :
  ∀ (n : nat) (env : Env) (w w' : World) (o : Outcome nat),
    PromptManager.importLoop n items env w = (o, w') →
    store_entries (indexedDB w') = store_entries (indexedDB w)
    ∧ requests w' = requests w
    ∧ alerts w' = alerts w.
Proof.
  induction items as [|p items IH]; intros n env w w' o; simpl.
  - unfold ret. by intros [= _ <-].
  - unfold bind. destruct (PromptManager.importOne n p env w) as [o1 w1] eqn:Hone.
    destruct (importOne_frame n p env w w1 o1 Hone) as (He & Hr & Ha).
    destruct o1 as [c|e]; [|by intros [= _ <-]].
    intros Hrest. destruct (IH c env w1 w' o Hrest) as (He' & Hr' & Ha').
    repeat split; congruence.
Qed.

(** X16.  An import, whatever the file holds, never throws, shows exactly one
    alert (the count of imported templates, or the failure message), sends
    nothing to the model and leaves the entries alone. *)
Theorem handleImport_reports_once
    (parsed : PromptManager.Parsed) (s : PromptManager.State) (env : Env) (w : World) :
  ∃ s' w' msg,
    PromptManager.handleImport parsed s env w = (Returned s', w')
    ∧ alerts w' = (alerts w ++ [msg])%list
    ∧ (msg = "Failed to import. Please check the file format."
       ∨ ∃ n, msg = "Successfully imported " +:+ PromptManager.numberToString n +:+ " prompts.")
    ∧ store_entries (indexedDB w') = store_entries (indexedDB w)
    ∧ requests w' = requests w.
Proof.
  unfold PromptManager.handleImport.
  destruct parsed as [e| |items].
  - eexists _, _, _. split; [reflexivity|]. simpl. repeat split. by left.
  - eexists _, _, _. split; [reflexivity|]. simpl. repeat split. by left.
  - unfold try_catch, bind at 1. unfold ret at 1. unfold bind at 1.
    destruct (PromptManager.importLoop 0 items env w) as [o w1] eqn:Hloop.
    destruct (importLoop_frame items 0 env w w1 o Hloop) as (He & Hr & Ha).
    destruct o as [n|e].
    + unfold bind, alert.
      destruct (PromptManager_loadPrompts_returns s env
                  (logAlert ("Successfully imported " +:+ PromptManager.numberToString n
                             +:+ " prompts.") w1)) as (s' & -> & _).
      eexists _, _, _. split; [reflexivity|]. simpl. rewrite Ha, He, Hr.
      repeat split. right. by exists n.
    + unfold bind, alert, ret. eexists _, _, _. split; [reflexivity|]. simpl.
      rewrite Ha, He, Hr. repeat split. by left.
Qed.



(** An object with a title, a content and the identifier [true]: [store.put]
    throws, the count of the items imported so far is lost with it and the
    failure message is shown; the template imported before it stays in the
    store. *)
Example handleImport_invalid_id :
  ∃ w',
    PromptManager.handleImport
      (PromptManager.ParsedArray
         [Demo.itemAB; PromptManager.ItemObjectInvalidId (Some "A") (Some "B")])
      PromptManager.initial (Demo.env Demo.silent) (Demo.world Demo.emptyDB)
    = (Returned PromptManager.initial, w')
    ∧ alerts w' = ["Failed to import. Please check the file format."]
    ∧ size (store_prompts (indexedDB w')) = 1%nat.
Proof. eexists. split; [vm_compute; reflexivity|]. split; reflexivity. Qed.

(** *** Export, then import *)

Lemma importOne_exported (n : nat) (p : SavedPrompt) (env : Env) (w : World) :
  dbService_db w = true →
  wellFormedPrompt p →
  PromptManager.importOne n (PromptManager.ItemObject (PromptManager.ofSavedPrompt p)) env w
  = (Returned (S n),
     set_indexedDB (mkIDB (<[SavedPrompt.id p := p]> (store_prompts (indexedDB w)))
                          (store_entries (indexedDB w))) w).
Proof.
  intros Hinit (Hid & Ht & Hc). apply truthy_true_iff in Hid, Ht, Hc.
  unfold PromptManager.importOne, PromptManager.validates,
    PromptManager.id_or_randomUUID, DBService.savePrompt, DBService.getStore,
    DBService.putStore.
  destruct p as [i t c ca]. simpl in *. io_unfold. rewrite Ht, Hc, Hid. simpl.
  by rewrite Hinit.
Qed.

Lemma importLoop_exported (l : list SavedPrompt) :
  ∀ (n : nat) (env : Env) (w : World),
    dbService_db w = true →
    Forall wellFormedPrompt l →
    PromptManager.importLoop n
      (map (fun p => PromptManager.ItemObject (PromptManager.ofSavedPrompt p)) l) env w
    = (Returned (n + length l)%nat,
       set_indexedDB
         (mkIDB (foldl (fun m p => <[SavedPrompt.id p := p]> m)
                       (store_prompts (indexedDB w)) l)
                (store_entries (indexedDB w))) w).
Proof.
  induction l as [|p l IH]; intros n env w Hinit Hall; simpl.
  - unfold ret. rewrite Nat.add_0_r. f_equal. destruct w as [[ps es] ? ? ? ? ? ?]. done.
  - apply Forall_cons in Hall as [Hp Hall]. unfold bind.
    rewrite (importOne_exported n p env w Hinit Hp).
    rewrite IH by done. simpl. by rewrite Nat.add_succ_r.
Qed.

Lemma foldl_insert_union (l : list SavedPrompt) :
  ∀ m0 : gmap string SavedPrompt,
    NoDup (SavedPrompt.id <$> l) →
    foldl (fun m p => <[SavedPrompt.id p := p]> m) m0 l
    = list_to_map ((fun p => (SavedPrompt.id p, p)) <$> l) ∪ m0.
Proof.
  induction l as [|p l IH]; intros m0 Hnd.
  - by rewrite fmap_nil, list_to_map_nil, (left_id_L ∅ (∪)).
  - rewrite fmap_cons in Hnd. apply NoDup_cons in Hnd as [Hp Hnd].
    change (foldl (fun m p => <[SavedPrompt.id p := p]> m) m0 (p :: l))
      with (foldl (fun m p => <[SavedPrompt.id p := p]> m)
                  (<[SavedPrompt.id p := p]> m0) l).
    rewrite IH by done. rewrite fmap_cons, list_to_map_cons.
    rewrite <- insert_union_l. symmetry. apply insert_union_r.
    apply not_elem_of_list_to_map_1. by rewrite <- list_fmap_compose.
Qed.

Lemma keyed_listing_pairs (m : gmap string SavedPrompt) :
  keyedPrompts m →
  (fun p => (SavedPrompt.id p, p)) <$> (map_to_list m).*2 = map_to_list m.
Proof.
  intros Hkeyed.
  assert (∀ l : list (string * SavedPrompt),
            (∀ kp, kp ∈ l → SavedPrompt.id kp.2 = kp.1) →
            (fun p => (SavedPrompt.id p, p)) <$> l.*2 = l) as Haux.
  { induction l as [|[k p] l IH]; intros Hl; [done|].
    rewrite !fmap_cons. pose proof (Hl (k, p) ltac:(left)) as Hk. simpl in Hk.
    simpl. rewrite Hk. f_equal. apply IH. intros kp Hkp. apply Hl. by right. }
  apply Haux. intros [k p] Hkp. apply elem_of_map_to_list in Hkp. by apply Hkeyed in Hkp.
Qed.

(** X18.  The file written by the export, imported again: every template of the
    exported list is stored as it was, over whatever the store holds, no
    identifier is generated and the alert counts them all.  Imported into
    an empty store this rebuilds the exported store; imported into the
    store it came from it changes nothing. *)
Theorem export_then_import_restores
    (s : PromptManager.State) (env : Env) (w : World) (m : gmap string SavedPrompt) :
  dbService_db w = true →
  keyedPrompts m →
  map_Forall (fun _ p => wellFormedPrompt p) m →
  PromptManager.prompts s ≡ₚ (map_to_list m).*2 →
  ∃ s' w',
    PromptManager.handleImport (PromptManager.exportedFile s) s env w = (Returned s', w')
    ∧ store_prompts (indexedDB w') = m ∪ store_prompts (indexedDB w)
    ∧ (store_prompts (indexedDB w) = ∅ → store_prompts (indexedDB w') = m)
    ∧ (store_prompts (indexedDB w) = m → store_prompts (indexedDB w') = m)
    ∧ store_entries (indexedDB w') = store_entries (indexedDB w)
    ∧ uuidsDrawn w' = uuidsDrawn w
    ∧ alerts w'
      = (alerts w
         ++ ["Successfully imported " +:+ PromptManager.numberToString (size m)
             +:+ " prompts."])%list.
Proof.
  intros Hinit Hkeyed Hwf Hlist.
  assert (Forall wellFormedPrompt (PromptManager.prompts s)) as Hall.
  { apply Forall_forall. intros p Hp. rewrite Hlist in Hp.
    apply elem_of_values in Hp as [k Hk]. by apply Hwf in Hk. }
  assert (NoDup (SavedPrompt.id <$> (map_to_list m).*2)) as Hnd.
  { assert (SavedPrompt.id <$> (map_to_list m).*2 = (map_to_list m).*1) as ->.
    { rewrite <- (keyed_listing_pairs m Hkeyed) at 2.
      by rewrite <- (list_fmap_compose _ fst). }
    apply NoDup_fst_map_to_list. }
  rewrite <- Hlist in Hnd.
  assert (list_to_map ((fun p => (SavedPrompt.id p, p)) <$> PromptManager.prompts s) = m)
    as Hmap.
  { transitivity (list_to_map (map_to_list m) : gmap string SavedPrompt);
      [|apply list_to_map_to_list].
    rewrite <- (keyed_listing_pairs m Hkeyed).
    apply list_to_map_proper; [|by rewrite Hlist].
    by rewrite <- list_fmap_compose. }
  unfold PromptManager.handleImport, PromptManager.exportedFile.
  unfold try_catch, bind at 1. unfold ret at 1. unfold bind at 1.
  rewrite (importLoop_exported _ 0 env w Hinit Hall).
  unfold bind, alert.
  match goal with
  | |- context [PromptManager.loadPrompts s env ?w1] =>
      destruct (PromptManager_loadPrompts_returns s env w1) as (s' & -> & _)
  end.
  eexists _, _. split; [reflexivity|]. simpl.
  rewrite (foldl_insert_union _ _ Hnd), Hmap.
  split; [reflexivity|].
  split; [intros ->; by rewrite (right_id_L ∅ (∪))|].
  split; [intros ->; by rewrite (idemp (∪) m)|].
  split; [reflexivity|]. split; [reflexivity|].
  by rewrite Hlist, length_fmap, length_map_to_list.
Qed.

Lemma export_then_import_restores_witness :
  ∃ s' w',
    PromptManager.handleImport
      (PromptManager.exportedFile
         (PromptManager.mkState (DBService.getAll (store_prompts Demo.twoPrompts)) false
                                (PromptManager.mkPartial None None None None)))
      (PromptManager.mkState (DBService.getAll (store_prompts Demo.twoPrompts)) false
                             (PromptManager.mkPartial None None None None))
      (Demo.env Demo.silent) (Demo.world Demo.emptyDB) = (Returned s', w')
    ∧ store_prompts (indexedDB w') = store_prompts Demo.twoPrompts.
Proof.
  destruct (export_then_import_restores
              (PromptManager.mkState (DBService.getAll (store_prompts Demo.twoPrompts)) false
                                     (PromptManager.mkPartial None None None None))
              (Demo.env Demo.silent) (Demo.world Demo.emptyDB)
              (store_prompts Demo.twoPrompts) eq_refl)
    as (s' & w' & H1 & _ & H3 & _).
  - repeat (apply map_Forall_insert_2; [reflexivity|]). apply map_Forall_empty.
  - repeat (apply map_Forall_insert_2; [by repeat split|]). apply map_Forall_empty.
  - apply getAll_Permutation.
  - exists s', w'. split; [exact H1|]. by apply H3.
Defined.

(** ** Start of the application *)








(** ** Entries and templates *)

Lemma saved_entry_immutable_witness :
  store_entries
    (indexedDB
       (set_indexedDB (mkIDB (delete "a" (store_prompts Demo.threeEntries))
                             (store_entries Demo.threeEntries))
                      (Demo.world Demo.threeEntries))) !! "a1"
  = store_entries (indexedDB (Demo.world Demo.threeEntries)) !! "a1".
Proof.
  apply (saved_entry_immutable [DeleteTemplate "a"] (Demo.env Demo.silent)
           (Demo.world Demo.threeEntries) _ (Returned tt) "a1").
  reflexivity.
Defined.

